(** * serviceUtilities: the platform-scoped progress store of NoStalk

    A shallow embedding of [util.go] (both revisions of the file) and the
    properties of its store-facing API and response formatter.

    - [Go], [strconv], [context]
                 the pieces of the Go runtime and standard library the code
                 relies on: how a call ends (return, [log.Fatalf], panic),
                 slices with their nil value, [strings.ToLower],
                 [strconv.ParseFloat], deadlines of a [context.Context];
    - [Schema]   the struct shapes shared by the two revisions, and the
                 platform resolver;
    - [Mongo]    the documents of the [users] collection and the three
                 driver calls the code issues: [FindOne] with an inclusion
                 projection, [FindOne] of the whole document, [UpdateOne]
                 with [$push] and [$each];
    - [Rev2]     the current revision of [util.go];
    - [Rev1]     the older revision of [util.go].

    What the functions print ([fmt.Println], the text of the log lines
    but for the message of [log.Fatalf]) is left out. *)

From Stdlib Require Import ZArith String Ascii List SpecFloat.
From stdpp Require Import base option list strings gmap.

Local Open Scope Z_scope.

(** ** Go runtime *)

Module Go.

(** Go's [error] values that reach this code. *)
Inductive error :=
| ErrNoDocuments                 (* mongo.ErrNoDocuments *)
| DeadlineExceeded               (* context.DeadlineExceeded *)
| Canceled                       (* context.Canceled *)
| ServerError (msg : string)     (* a command error reported by the server *)
| ErrSyntax                      (* strconv.ErrSyntax, inside a *NumError *)
| ErrRange.                      (* strconv.ErrRange, inside a *NumError *)

(** How a call ends: it returns, or [log.Fatalf] logs the message and
    exits the process ([os.Exit(1)]), or the goroutine panics. *)
Inductive Outcome (A : Type) :=
| Ret (a : A)
| Fatal (msg : string) (err : error)
| Panic (msg : string).
Arguments Ret {A} a.
Arguments Fatal {A} msg err.
Arguments Panic {A} msg.

#[export] Instance Outcome_ret : MRet Outcome := fun A a => Ret a.
#[export] Instance Outcome_bind : MBind Outcome := fun A B f m =>
  match m with
  | Ret a => f a
  | Fatal msg err => Fatal msg err
  | Panic msg => Panic msg
  end.

Definition returns {A} (o : Outcome A) : Prop := exists a, o = Ret a.

(** The zero value of a Go type. *)
Class Zero (A : Type) := zero : A.
#[export] Instance Zero_string : Zero string := EmptyString.
#[export] Instance Zero_Z : Zero Z := 0.

(** [float64]: IEEE 754 binary64, as data. *)
Definition float64 := spec_float.
#[export] Instance Zero_float64 : Zero float64 := S754_zero false.
Definition prec64 : Z := 53.
Definition emax64 : Z := 1024.
Definition float64_of_Z (z : Z) : float64 := binary_normalize prec64 emax64 z 0 false.

(** The integer a [float64] is, when it is one. *)
Definition integer_value (f : float64) : option Z :=
  match f with
  | S754_zero _ => Some 0
  | S754_finite s m e =>
      let sign := if s then -1 else 1 in
      if 0 <=? e then Some (sign * (Z.pos m * 2 ^ e))
      else if Z.pos m mod 2 ^ (- e) =? 0 then Some (sign * (Z.pos m / 2 ^ (- e)))
      else None
  | _ => None
  end.

(** A slice is nil or has elements; [len] of a nil slice is 0. *)
Definition slice (A : Type) := option (list A).
#[export] Instance Zero_slice {A} : Zero (slice A) := None.
Definition elems {A} (s : slice A) : list A := default [] s.
Definition len {A} (s : slice A) : Z := Z.of_nat (length (elems s)).

(** [append(s, x)]: the result is never nil. *)
Definition append {A} (s : slice A) (x : A) : slice A := Some (elems s ++ [x]).

(** [s[i]] with its bounds check. *)
Definition index {A} (s : slice A) (i : Z) : Outcome A :=
  if (0 <=? i) && (i <? len s) then
    match elems s !! Z.to_nat i with
    | Some x => Ret x
    | None => Panic "index out of range"
    end
  else Panic "index out of range".

(** [strings.ToLower] on the bytes of an ASCII string: the letters
    [A]..[Z] are mapped to [a]..[z], every other byte is kept (bytes
    above 127, where Go lower-cases whole runes, are kept too). *)
Definition lower_byte (c : ascii) : ascii :=
  let n := N_of_ascii c in
  if ((65 <=? n) && (n <=? 90))%N then ascii_of_N (n + 32) else c.

Fixpoint ToLower (s : string) : string :=
  match s with
  | EmptyString => EmptyString
  | String c s' => String (lower_byte c) (ToLower s')
  end.

(** An ASCII string without upper-case letters. *)
Fixpoint lower_ascii (s : string) : bool :=
  match s with
  | EmptyString => true
  | String c s' =>
      let n := N_of_ascii c in
      (n <? 128)%N && negb ((65 <=? n) && (n <=? 90))%N && lower_ascii s'
  end.

End Go.

(** ** [strconv.ParseFloat(s, 64)]

    The grammar and the result follow package [strconv]: an optional sign,
    then either one of the special names ([inf], [infinity], unsigned
    [nan], any case) or a decimal or hexadecimal floating-point literal in
    Go syntax, with digit-separating underscores; the whole string must be
    consumed.  The value is the literal's exact value rounded to the
    nearest binary64 (ties to even); a literal that rounds to an infinity
    is returned as that infinity with [ErrRange], any other failure as 0
    with [ErrSyntax]. *)

Module strconv.
Import Go.

Definition byte (c : ascii) : N := N_of_ascii c.
Definition is_digit (c : ascii) : bool := ((48 <=? byte c) && (byte c <=? 57))%N.
Definition digit_val (c : ascii) : Z := Z.of_N (byte c) - 48.

(** [lower(c) = c | ('x' - 'X')] *)
Definition lower (c : ascii) : N := N.lor (byte c) 32.
Definition is_hex_letter (c : ascii) : bool := ((97 <=? lower c) && (lower c <=? 102))%N.
Definition hex_letter_val (c : ascii) : Z := Z.of_N (lower c) - 97 + 10.

(** [commonPrefixLenIgnoreCase(s, prefix)], [prefix] in lower case. *)
Fixpoint commonPrefixLenIgnoreCase (s prefix : string) : nat :=
  match s, prefix with
  | String c s', String p prefix' =>
      if Ascii.eqb (lower_byte c) p then S (commonPrefixLenIgnoreCase s' prefix') else O
  | _, _ => O
  end.

(** [special(s)]: the value and the number of bytes consumed. *)
Definition special_inf (sign : bool) (nsign : nat) (s : string) : option (float64 * nat) :=
  let n := commonPrefixLenIgnoreCase s "infinity" in
  let n := if (3 <? n)%nat && (n <? 8)%nat then 3%nat else n in
  if (n =? 3)%nat || (n =? 8)%nat then Some (S754_infinity sign, (nsign + n)%nat) else None.

Definition special (s : string) : option (float64 * nat) :=
  match s with
  | EmptyString => None
  | String c s' =>
      if Ascii.eqb c "+" then special_inf false 1 s'
      else if Ascii.eqb c "-" then special_inf true 1 s'
      else if Ascii.eqb c "i" || Ascii.eqb c "I" then special_inf false 0 s
      else if Ascii.eqb c "n" || Ascii.eqb c "N" then
        if (commonPrefixLenIgnoreCase s "nan" =? 3)%nat then Some (S754_nan, 3%nat) else None
      else None
  end.

(** The state of the mantissa loop of [readFloat].  The mantissa is kept
    exact (Go keeps 19 digits and a truncation flag, and re-reads the
    digits when they matter); [frac] counts the digits after the point. *)
Record mant_state := MantState {
  mantissa : Z;
  frac : Z;
  sawdot : bool;
  sawdigits : bool;
  underscores : bool
}.

Definition push_digit (base d : Z) (st : mant_state) : mant_state :=
  {| mantissa := mantissa st * base + d;
     frac := if sawdot st then frac st + 1 else frac st;
     sawdot := sawdot st;
     sawdigits := true;
     underscores := underscores st |}.

Fixpoint mant_loop (hex : bool) (s : string) (st : mant_state) : mant_state * string :=
  match s with
  | EmptyString => (st, s)
  | String c s' =>
      if Ascii.eqb c "_" then
        mant_loop hex s' {| mantissa := mantissa st; frac := frac st; sawdot := sawdot st;
                            sawdigits := sawdigits st; underscores := true |}
      else if Ascii.eqb c "." then
        if sawdot st then (st, s)
        else mant_loop hex s' {| mantissa := mantissa st; frac := frac st; sawdot := true;
                                 sawdigits := sawdigits st; underscores := underscores st |}
      else if is_digit c then
        mant_loop hex s' (push_digit (if hex then 16 else 10) (digit_val c) st)
      else if hex && is_hex_letter c then
        mant_loop hex s' (push_digit 16 (hex_letter_val c) st)
      else (st, s)
  end.

(** The digits of the exponent; as in Go the value stops growing once it
    has reached 10000. *)
Fixpoint exp_loop (s : string) (e : Z) (us : bool) : Z * bool * string :=
  match s with
  | EmptyString => (e, us, s)
  | String c s' =>
      if Ascii.eqb c "_" then exp_loop s' e true
      else if is_digit c then exp_loop s' (if e <? 10000 then e * 10 + digit_val c else e) us
      else (e, us, s)
  end.

(** [underscoreOK(s)]: an underscore only between digits, or between a
    base prefix and a digit. *)
Inductive saw := saw_start | saw_digit | saw_underscore | saw_other.

Fixpoint underscore_scan (hex : bool) (s : string) (sw : saw) : bool :=
  match s with
  | EmptyString => match sw with saw_underscore => false | _ => true end
  | String c s' =>
      if is_digit c || (hex && is_hex_letter c) then underscore_scan hex s' saw_digit
      else if Ascii.eqb c "_" then
        match sw with
        | saw_digit => underscore_scan hex s' saw_underscore
        | _ => false
        end
      else
        match sw with
        | saw_underscore => false
        | _ => underscore_scan hex s' saw_other
        end
  end.

Definition strip_sign (s : string) : string :=
  match s with
  | String c s' => if Ascii.eqb c "+" || Ascii.eqb c "-" then s' else s
  | EmptyString => s
  end.

Definition underscoreOK (s : string) : bool :=
  match strip_sign s with
  | String c0 (String c1 s') =>
      if Ascii.eqb c0 "0" && ((lower c1 =? 98) || (lower c1 =? 111) || (lower c1 =? 120))%N
      then underscore_scan (lower c1 =? 120)%N s' saw_digit
      else underscore_scan false (strip_sign s) saw_start
  | s0 => underscore_scan false s0 saw_start
  end.

(** What [readFloat] hands back: sign, exact mantissa, exponent of the
    base (10, or 2 for a hexadecimal literal), and the unread rest. *)
Record literal := Literal {
  neg : bool;
  hex : bool;
  mant : Z;
  exp : Z;
  rest : string
}.

Definition read_sign (s : string) : bool * string :=
  match s with
  | String c s' =>
      if Ascii.eqb c "+" then (false, s')
      else if Ascii.eqb c "-" then (true, s')
      else (false, s)
  | EmptyString => (false, s)
  end.

Definition read_base (s : string) : bool * string :=
  match s with
  | String c0 (String c1 (String c2 s')) =>
      if Ascii.eqb c0 "0" && (lower c1 =? 120)%N then (true, String c2 s') else (false, s)
  | _ => (false, s)
  end.

Definition consumed (s r : string) : string :=
  substring 0 (String.length s - String.length r) s.

Definition readFloat (s : string) : option literal :=
  match s with
  | EmptyString => None
  | _ =>
    let '(ng, s1) := read_sign s in
    let '(hx, s2) := read_base s1 in
    let '(st, s3) := mant_loop hx s2 (MantState 0 0 false false false) in
    if negb (sawdigits st) then None
    else
      let dp := if hx then - (4 * frac st) else - frac st in
      let finish (us : bool) (e : Z) (r : string) : option literal :=
        if us && negb (underscoreOK (consumed s r)) then None
        else Some (Literal ng hx (mantissa st) (if mantissa st =? 0 then 0 else e) r) in
      match s3 with
      | String c s4 =>
          if (lower c =? (if hx then 112 else 101))%N then
            match s4 with
            | EmptyString => None
            | String d s5 =>
                let '(esign, s6) :=
                  if Ascii.eqb d "+" then (1, s5)
                  else if Ascii.eqb d "-" then (-1, s5)
                  else (1, s4) in
                match s6 with
                | EmptyString => None
                | String d0 _ =>
                    if negb (is_digit d0) then None
                    else
                      let '(e, us, r) := exp_loop s6 0 (underscores st) in
                      finish us (dp + e * esign) r
                end
            end
          else if hx then None
          else finish (underscores st) dp s3
      | EmptyString => if hx then None else finish (underscores st) dp s3
      end
  end.

(** Rounding of [±m * 10^e] and of [±m * 2^e] to the nearest binary64. *)
Definition round_decimal (ng : bool) (m e : Z) : float64 :=
  if m =? 0 then S754_zero ng
  else if 0 <=? e then
    binary_normalize prec64 emax64 ((if ng then - m else m) * 10 ^ e) 0 ng
  else
    let '(q, e', l) := SFdiv_core_binary prec64 emax64 m 0 (10 ^ (- e)) 0 in
    binary_round_aux prec64 emax64 ng q e' l.

Definition round_hex (ng : bool) (m e : Z) : float64 :=
  binary_normalize prec64 emax64 (if ng then - m else m) e ng.

Definition range_check (f : float64) : float64 * option error :=
  match f with
  | S754_infinity _ => (f, Some ErrRange)
  | _ => (f, None)
  end.

(** [atof64]: value, bytes consumed, error. *)
Definition atof64 (s : string) : float64 * nat * option error :=
  match special s with
  | Some (f, n) => (f, n, None)
  | None =>
      match readFloat s with
      | None => (zero, O, Some ErrSyntax)
      | Some l =>
          let n := (String.length s - String.length (rest l))%nat in
          let f := if hex l then round_hex (neg l) (mant l) (exp l)
                   else round_decimal (neg l) (mant l) (exp l) in
          let '(f, err) := range_check f in
          (f, n, err)
      end
  end.

Definition is_syntax_error (err : option error) : bool :=
  match err with
  | Some ErrSyntax => true
  | _ => false
  end.

Definition ParseFloat (s : string) : float64 * option error :=
  let '(f, n, err) := atof64 s in
  if negb (n =? String.length s)%nat && negb (is_syntax_error err)
  then (zero, Some ErrSyntax)
  else (f, err).

End strconv.

(** ** [context]: deadlines and cancellation

    Times and durations are in nanoseconds, as [time.Duration]. *)

Module context.
Import Go.

Definition Second : Z := 1000000000.

Record Context := {
  deadline : option Z;      (* Deadline(): None when no deadline is set *)
  canceled : bool
}.

Definition Background : Context := {| deadline := None; canceled := false |}.
Definition TODO : Context := {| deadline := None; canceled := false |}.

Definition WithTimeout (parent : Context) (now timeout : Z) : Context :=
  {| deadline := Some (match deadline parent with
                       | Some d => Z.min d (now + timeout)
                       | None => now + timeout
                       end);
     canceled := canceled parent |}.

(** [ctx.Err()] at time [now]. *)
Definition Err (ctx : Context) (now : Z) : option error :=
  if canceled ctx then Some Canceled
  else match deadline ctx with
       | Some d => if d <=? now then Some DeadlineExceeded else None
       | None => None
       end.

End context.

(** ** The struct shapes of [util.go]

    [UserSchema], [Platforms] and [PlatformDataModel] have the same fields
    in both revisions; the revisions differ in the type of [Ranking] and
    in [ContestData], which are parameters here.  [SubmissionData] is the
    same in both. *)

Module Schema.
Import Go.

Record SubmissionData := {
  ProblemUrl : string;
  ProblemName : string;
  SubmissionDate : string;
  SubmissionLanguage : string;
  SubmissionStatus : string;
  CodeUrl : string
}.

#[export] Instance Zero_SubmissionData : Zero SubmissionData :=
  {| ProblemUrl := zero; ProblemName := zero; SubmissionDate := zero;
     SubmissionLanguage := zero; SubmissionStatus := zero; CodeUrl := zero |}.

Section Shapes.
Context {ranking_t ContestData : Type} `{!Zero ranking_t}.

Record PlatformDataModel := {
  Handle : string;
  TotalSolved : Z;                      (* int32 *)
  Ranking : ranking_t;
  Contests : slice ContestData;
  Submissions : slice SubmissionData
}.

#[export] Instance Zero_PlatformDataModel : Zero PlatformDataModel :=
  {| Handle := zero; TotalSolved := zero; Ranking := zero;
     Contests := zero; Submissions := zero |}.

Record Platforms := {
  Leetcode : PlatformDataModel;
  Codeforces : PlatformDataModel;
  Codechef : PlatformDataModel;
  Cpoj : PlatformDataModel;
  Hackerearth : PlatformDataModel;
  Atcoder : PlatformDataModel
}.

Record UserSchema := {
  Email : string;
  FirstName : string;
  LastName : string;
  Password : string;
  PlatformData : Platforms;
  RefreshToken : string
}.

(** [reflect.Value.FieldByName] on a [Platforms] value: the field of
    exactly that name, if the struct has one. *)
Definition FieldByName (platformData : Platforms) (name : string) : option PlatformDataModel :=
  if decide (name = "Leetcode") then Some (Leetcode platformData)
  else if decide (name = "Codeforces") then Some (Codeforces platformData)
  else if decide (name = "Codechef") then Some (Codechef platformData)
  else if decide (name = "Cpoj") then Some (Cpoj platformData)
  else if decide (name = "Hackerearth") then Some (Hackerearth platformData)
  else if decide (name = "Atcoder") then Some (Atcoder platformData)
  else None.

(** [getPlatformDataDynamically], the same in both revisions.  For a
    name that is no field, [FieldByName] gives the zero [Value], on
    which [Interface()] panics. *)
Definition getPlatformDataDynamically (platformData : Platforms) (platform : string)
  : Outcome PlatformDataModel :=
  match FieldByName platformData platform with
  | Some fieldValue => Ret fieldValue
  | None => Panic "reflect: call of reflect.Value.Interface on zero Value"
  end.

End Shapes.

Arguments PlatformDataModel : clear implicits.
Arguments Platforms : clear implicits.
Arguments UserSchema : clear implicits.

(** The names of the fields of [Platforms]. *)
Definition platform_names : list string :=
  ["Leetcode"; "Codeforces"; "Codechef"; "Cpoj"; "Hackerearth"; "Atcoder"].

End Schema.

(** ** The [users] collection and the driver calls

    A document of the collection is represented by what the schema sees of
    it: the profile strings and, under [platformData], one sub-document per
    persisted key, each shaped as a [PlatformDataModel].  An absent scalar
    is its zero value and an absent array is the nil slice, which is what
    decoding makes of them.  The BSON encoding of the entries is not
    modelled: an entry written by [$push] is read back as the same record.
    The dotted path [platformData.<key>.<log>] is kept as its key and its
    log, so a key stands for one path segment.  The driver calls fail when
    their context is done, when no document matches a read, and when the
    server rejects the update; otherwise the store answers. *)

Module Mongo.
Import Go context Schema.

Inductive log_field := contests | submissions.

(** A key that is one segment of a dotted path: ASCII, not empty, without
    a dot or a NUL byte, not starting with a dollar sign.  The statements
    that add an entry under a key given by the caller, or read one in the
    older revision, are about such keys. *)
Fixpoint plain_bytes (s : string) : bool :=
  match s with
  | EmptyString => true
  | String c s' =>
      negb (Ascii.eqb c ".") && negb (Ascii.eqb c "000") && (N_of_ascii c <? 128)%N
      && plain_bytes s'
  end.

Definition field_name (key : string) : bool :=
  match key with
  | EmptyString => false
  | String c _ => negb (Ascii.eqb c "$") && plain_bytes key
  end.

Section Collection.
Context {ranking_t ContestData : Type} `{!Zero ranking_t}.

Abbreviation PlatformDataModel := (PlatformDataModel ranking_t ContestData).
Abbreviation UserSchema := (UserSchema ranking_t ContestData).

Record Document := {
  email : string;
  firstName : string;
  lastName : string;
  password : string;
  platformData : gmap string PlatformDataModel;
  refreshToken : string
}.

(** The filter [{"email": email}]; [FindOne] and [UpdateOne] act on the
    first document that matches. *)
Definition matches (filter_email : string) (d : Document) : bool :=
  bool_decide (email d = filter_email).

Fixpoint find_first (filter_email : string) (coll : list Document) : option Document :=
  match coll with
  | [] => None
  | d :: coll' => if matches filter_email d then Some d else find_first filter_email coll'
  end.

Fixpoint update_first (filter_email : string) (f : Document -> Document)
    (coll : list Document) : list Document :=
  match coll with
  | [] => []
  | d :: coll' =>
      if matches filter_email d then f d :: coll'
      else d :: update_first filter_email f coll'
  end.

(** The inclusion projection [{"platformData.<key>.<log>": 1}]: of the
    fields of the schema only that array is returned. *)
Definition only (f : log_field) (p : PlatformDataModel) : PlatformDataModel :=
  match f with
  | contests =>
      {| Handle := zero; TotalSolved := zero; Ranking := zero;
         Contests := Contests p; Submissions := zero |}
  | submissions =>
      {| Handle := zero; TotalSolved := zero; Ranking := zero;
         Contests := zero; Submissions := Submissions p |}
  end.

Definition project (key : string) (f : log_field) (d : Document) : Document :=
  {| email := zero; firstName := zero; lastName := zero; password := zero;
     platformData := match platformData d !! key with
                     | Some p => {[ key := only f p ]}
                     | None => ∅
                     end;
     refreshToken := zero |}.

(** [collection.FindOne(ctx, filter, opts).Decode(&result)] *)
Definition FindOne (ctx : Context) (now : Z) (coll : list Document)
    (filter_email : string) (projection : option (string * log_field))
  : error + Document :=
  match Err ctx now with
  | Some err => inl err
  | None =>
      match find_first filter_email coll with
      | None => inl ErrNoDocuments
      | Some d =>
          inr (match projection with
               | Some (key, f) => project key f d
               | None => d
               end)
      end
  end.

(** [bson.Marshal] of a decoded document, and [bson.Unmarshal] into a
    [UserSchema].  A struct field without a tag is decoded from the
    element whose key is the field's name in lower case, and also from an
    element whose key becomes that once lower-cased; a field the document
    has no element for is left at its zero value.  Where several keys
    differ in case only, the driver decodes them one after the other into
    the same field; the model takes one of them, and [lower_case_keys]
    says that a document has no such keys.  Documents shaped as above
    always decode. *)
Definition Marshal (documentResult : Document) : error + Document := inr documentResult.

Definition decodes_to (fieldName : string) (element : string * PlatformDataModel) : Prop :=
  ToLower element.1 = ToLower fieldName.

#[export] Instance decodes_to_dec fieldName element : Decision (decodes_to fieldName element).
Proof. unfold decodes_to. apply _. Defined.

Definition decode_platform (m : gmap string PlatformDataModel) (fieldName : string)
  : PlatformDataModel :=
  match filter (decodes_to fieldName) (map_to_list m) with
  | (_, p) :: _ => p
  | [] => zero
  end.

(** The keys under [platformData] are ASCII in lower case, as the
    current revision writes them for the names of the platforms. *)
Definition lower_case_keys (d : Document) : Prop :=
  forall key, is_Some (platformData d !! key) -> lower_ascii key = true.

Definition decode (doc : Document) : UserSchema :=
  {| Email := email doc;
     FirstName := firstName doc;
     LastName := lastName doc;
     Password := password doc;
     PlatformData :=
       {| Leetcode := decode_platform (platformData doc) "Leetcode";
          Codeforces := decode_platform (platformData doc) "Codeforces";
          Codechef := decode_platform (platformData doc) "Codechef";
          Cpoj := decode_platform (platformData doc) "Cpoj";
          Hackerearth := decode_platform (platformData doc) "Hackerearth";
          Atcoder := decode_platform (platformData doc) "Atcoder" |};
     RefreshToken := refreshToken doc |}.

Definition Unmarshal (doc : Document) : error + UserSchema := inr (decode doc).

(** The update [{"$push": {"platformData.<key>.<log>": {"$each": vs}}}].
    A nil slice is encoded as BSON null, and the server rejects an
    [$each] that is not an array.  Otherwise the array is extended at
    its end, and created with its parents where the document lacks
    it. *)
Inductive each :=
| EachContests (vs : slice ContestData)
| EachSubmissions (vs : slice SubmissionData).

Definition sub_document (key : string) (d : Document) : PlatformDataModel :=
  default zero (platformData d !! key).

Definition set_sub_document (key : string) (p : PlatformDataModel) (d : Document) : Document :=
  {| email := email d; firstName := firstName d; lastName := lastName d;
     password := password d;
     platformData := <[ key := p ]> (platformData d);
     refreshToken := refreshToken d |}.

Definition push_contests (vs : list ContestData) (p : PlatformDataModel) : PlatformDataModel :=
  {| Handle := Handle p; TotalSolved := TotalSolved p; Ranking := Ranking p;
     Contests := Some (elems (Contests p) ++ vs);
     Submissions := Submissions p |}.

Definition push_submissions (vs : list SubmissionData) (p : PlatformDataModel) : PlatformDataModel :=
  {| Handle := Handle p; TotalSolved := TotalSolved p; Ranking := Ranking p;
     Contests := Contests p;
     Submissions := Some (elems (Submissions p) ++ vs) |}.

Definition pushed_contests (key : string) (vs : list ContestData) (d : Document) : Document :=
  set_sub_document key (push_contests vs (sub_document key d)) d.

Definition pushed_submissions (key : string) (vs : list SubmissionData) (d : Document) : Document :=
  set_sub_document key (push_submissions vs (sub_document key d)) d.

Definition push (key : string) (e : each) : error + (Document -> Document) :=
  match e with
  | EachContests (Some vs) => inr (pushed_contests key vs)
  | EachSubmissions (Some vs) => inr (pushed_submissions key vs)
  | _ => inl (ServerError "The argument to $each in $push must be an array but it was of type null")
  end.

(** [collection.UpdateOne(ctx, filter, update)]: the collection after
    the call, or the error.  No matching document is not an error. *)
Definition UpdateOne (ctx : Context) (now : Z) (coll : list Document)
    (filter_email : string) (key : string) (e : each)
  : error + list Document :=
  match Err ctx now with
  | Some err => inl err
  | None =>
      match push key e with
      | inl err => inl err
      | inr f => inr (update_first filter_email f coll)
      end
  end.

(** *** Vocabulary of the statements *)

(** The two logs stored under a key. *)
Definition contest_log (key : string) (d : Document) : slice ContestData :=
  Contests (sub_document key d).
Definition submission_log (key : string) (d : Document) : slice SubmissionData :=
  Submissions (sub_document key d).

(** [d'] is [d] but for the sub-document under [key]. *)
Definition same_elsewhere (key : string) (d d' : Document) : Prop :=
  email d' = email d /\ firstName d' = firstName d /\ lastName d' = lastName d /\
  password d' = password d /\ refreshToken d' = refreshToken d /\
  forall k, k <> key -> platformData d' !! k = platformData d !! k.

Definition same_scalars (p p' : PlatformDataModel) : Prop :=
  Handle p' = Handle p /\ TotalSolved p' = TotalSolved p /\ Ranking p' = Ranking p.

(** [d'] is [d] with [vs] added at the end of the contest log under
    [key], and nothing else changed. *)
Definition contests_extended (key : string) (vs : list ContestData) (d d' : Document) : Prop :=
  same_elsewhere key d d' /\
  same_scalars (sub_document key d) (sub_document key d') /\
  submission_log key d' = submission_log key d /\
  elems (contest_log key d') = elems (contest_log key d) ++ vs.

Definition submissions_extended (key : string) (vs : list SubmissionData) (d d' : Document) : Prop :=
  same_elsewhere key d d' /\
  same_scalars (sub_document key d) (sub_document key d') /\
  contest_log key d' = contest_log key d /\
  elems (submission_log key d') = elems (submission_log key d) ++ vs.

End Collection.

Arguments Document : clear implicits.
Arguments each : clear implicits.

(** [log.Fatalf(msg, err)] when the call failed. *)
Definition orFatal {A} (msg : string) (r : error + A) : Outcome A :=
  match r with
  | inl err => Fatal msg err
  | inr a => Ret a
  end.

End Mongo.

(** ** The response messages

    Modelled from the spec: the generated message types of package
    [protoDefinitions] are not part of the repository's sources; the fields
    are those the struct literals of [util.go] set and section 6 of the
    specification lists. *)

Module platformDatapb.
Import Go.

Record Submission := {
  Date : string;
  Language : string;
  ProblemStatus : string;
  ProblemTitle : string;
  ProblemLink : string;
  CodeLink : string
}.

Record Contest := {
  ContestName : string;
  Rank : float64;
  Rating : float64;
  ContestId : float64;
  ContestDate : string
}.

Record SubmissionResponse := { SubmissionResponse_Submissions : slice Submission }.
Record ContestResponse := { ContestResponse_Contests : slice Contest }.
Record CompleteUserDataResponse := {
  Submissions : slice Submission;
  Contests : slice Contest
}.

End platformDatapb.

(** ** The current revision of [util.go]

    Every function takes, after the arguments of the Go function, the time
    [now] of the call and the content [coll] of the [users] collection; the
    append functions also give the content after the call. *)

Module Rev2.
Import Go context Schema Mongo strconv.

Record ContestData := {
  ContestName : string;
  ContestDate : string;
  Rank : float64;
  Rating : float64;
  Solved : Z;                             (* int32 *)
  ContestID : string
}.

#[export] Instance Zero_ContestData : Zero ContestData :=
  {| ContestName := zero; ContestDate := zero; Rank := zero; Rating := zero;
     Solved := zero; ContestID := zero |}.

Abbreviation PlatformDataModel := (Schema.PlatformDataModel float64 ContestData).
Abbreviation Platforms := (Schema.Platforms float64 ContestData).
Abbreviation UserSchema := (Schema.UserSchema float64 ContestData).
Abbreviation Document := (Mongo.Document float64 ContestData).

(** Of [DBResources] the context and the name of the collection; the
    client and the cancel function play no part below. *)
Record DBResources := {
  ctx : Context;
  selectedCollection : string * string
}.

(** [OpenDatabaseConnection]; [newClient_err] and [connect_err] are what
    [mongo.NewClient] and [client.Connect] report. *)
Definition OpenDatabaseConnection (newClient_err connect_err : option error) (now : Z)
  : error + DBResources :=
  match newClient_err with
  | Some err => inl err
  | None =>
      let ctx := WithTimeout Background now (10 * Second) in
      match connect_err with
      | Some err => inl err
      | None => inr {| ctx := ctx; selectedCollection := ("UserDB", "users") |}
      end
  end.

Definition GetLastContest (email platform : string) (dbResources : DBResources)
    (now : Z) (coll : list Document) : Outcome ContestData :=
  let opts := Some (ToLower platform, contests) in
  documentResult ← orFatal "Couldnt find user"
                     (FindOne (ctx dbResources) now coll email opts);
  doc ← orFatal "Couldnt marshal user" (Marshal documentResult);
  userObject ← orFatal "Couldnt unmarshal user" (Unmarshal doc);
  platformData ← getPlatformDataDynamically (PlatformData userObject) platform;
  if len (Contests platformData) =? 0 then Ret zero
  else index (Contests platformData) (len (Contests platformData) - 1).

Definition GetLastSubmission (email platform : string) (dbResources : DBResources)
    (now : Z) (coll : list Document) : Outcome SubmissionData :=
  let opts := Some (ToLower platform, submissions) in
  documentResult ← orFatal "Couldnt find user"
                     (FindOne (ctx dbResources) now coll email opts);
  doc ← orFatal "Couldnt marshal user" (Marshal documentResult);
  userObject ← orFatal "Couldnt unmarshal user" (Unmarshal doc);
  platformData ← getPlatformDataDynamically (PlatformData userObject) platform;
  if len (Submissions platformData) =? 0 then Ret zero
  else index (Submissions platformData) (len (Submissions platformData) - 1).

(** The second [bson.Unmarshal], into [userMap], fills a map the function
    never reads; like the first it cannot fail on a decoded document. *)
Definition FindContestsandSubmissionsFromDB (dbResources : DBResources)
    (email platform : string) (now : Z) (coll : list Document)
  : Outcome (slice ContestData * slice SubmissionData) :=
  result ← orFatal "Couldnt find user" (FindOne TODO now coll email None);
  doc ← orFatal "Couldnt marshal user" (Marshal result);
  userObject ← orFatal "Couldnt unmarshal user" (Unmarshal doc);
  _ ← orFatal "Couldnt unmarshal user" (Unmarshal doc);
  platformData ← getPlatformDataDynamically (PlatformData userObject) platform;
  Ret (Contests platformData, Submissions platformData).

(** The returned [error] is [None] for Go's nil. *)
Definition AppendContestData (dbResources : DBResources) (email platform : string)
    (newContestData : slice ContestData) (now : Z) (coll : list Document)
  : Outcome (option error) * list Document :=
  match UpdateOne TODO now coll email (ToLower platform) (EachContests newContestData) with
  | inl err => (Fatal "Couldnt update user" err, coll)
  | inr coll' => (Ret None, coll')
  end.

Definition AppendSubmissionData (dbResources : DBResources) (email platform : string)
    (newSubmissionData : slice SubmissionData) (now : Z) (coll : list Document)
  : Outcome (option error) * list Document :=
  match UpdateOne TODO now coll email (ToLower platform)
          (EachSubmissions (ContestData := ContestData) newSubmissionData) with
  | inl err => (Fatal "Couldnt update user" err, coll)
  | inr coll' => (Ret None, coll')
  end.

Definition submissionResponseObject (submission : SubmissionData) : platformDatapb.Submission :=
  {| platformDatapb.Date := SubmissionDate submission;
     platformDatapb.Language := SubmissionLanguage submission;
     platformDatapb.ProblemStatus := SubmissionStatus submission;
     platformDatapb.ProblemTitle := ProblemName submission;
     platformDatapb.ProblemLink := ProblemUrl submission;
     platformDatapb.CodeLink := CodeUrl submission |}.

Fixpoint submission_loop (submissionDataforDB : list SubmissionData)
    (grpcSubmissionData : slice platformDatapb.Submission)
  : slice platformDatapb.Submission :=
  match submissionDataforDB with
  | [] => grpcSubmissionData
  | submission :: rest =>
      submission_loop rest (append grpcSubmissionData (submissionResponseObject submission))
  end.

Definition formatSubmissionSchemaToGRPCSubmission (submissionDataforDB : slice SubmissionData)
  : slice platformDatapb.Submission :=
  submission_loop (elems submissionDataforDB) None.

Definition contestResponseObject (contest : ContestData) (contestIDParsedToFloat : float64)
  : platformDatapb.Contest :=
  {| platformDatapb.ContestName := ContestName contest;
     platformDatapb.Rank := Rank contest;
     platformDatapb.Rating := Rating contest;
     platformDatapb.ContestId := contestIDParsedToFloat;
     platformDatapb.ContestDate := ContestDate contest |}.

Fixpoint contest_loop (contestDataforDB : list ContestData)
    (grpcContestData : slice platformDatapb.Contest)
  : Outcome (slice platformDatapb.Contest) :=
  match contestDataforDB with
  | [] => Ret grpcContestData
  | contest :: rest =>
      let '(contestIDParsedToFloat, err) := ParseFloat (ContestID contest) in
      match err with
      | Some e => Fatal "Couldnt parse contestID to float" e
      | None =>
          contest_loop rest
            (append grpcContestData (contestResponseObject contest contestIDParsedToFloat))
      end
  end.

Definition formatContestSchemaToGRPCContest (contestDataforDB : slice ContestData)
  : Outcome (slice platformDatapb.Contest) :=
  contest_loop (elems contestDataforDB) None.

Definition CreateGRPCSubmissionResponseFromSubmissionSchema
    (submissionDataforDB : slice SubmissionData) : platformDatapb.SubmissionResponse :=
  {| platformDatapb.SubmissionResponse_Submissions :=
       formatSubmissionSchemaToGRPCSubmission submissionDataforDB |}.

Definition CreateGRPCContestResponseFromContestSchema
    (contestDataforDB : slice ContestData) : Outcome platformDatapb.ContestResponse :=
  cs ← formatContestSchemaToGRPCContest contestDataforDB;
  Ret {| platformDatapb.ContestResponse_Contests := cs |}.

Definition CreateGRPCCompleteUserDataResponseFromSubmssionSchema
    (submissionDataforDB : slice SubmissionData) (contestDataforDB : slice ContestData)
  : Outcome platformDatapb.CompleteUserDataResponse :=
  let ss := formatSubmissionSchemaToGRPCSubmission submissionDataforDB in
  cs ← formatContestSchemaToGRPCContest contestDataforDB;
  Ret {| platformDatapb.Submissions := ss; platformDatapb.Contests := cs |}.

End Rev2.

(** ** The older revision of [util.go]

    [Rank], the ratings and [ContestID] are [int64], [Ranking] is [int64];
    the platform name goes into the path as it is given, and the two
    last-element functions read the [Leetcode] field. *)

Module Rev1.
Import Go context Schema Mongo.

Record ContestData := {
  ContestName : string;
  Rank : Z;
  OldRating : Z;
  NewRating : Z;
  ContestID : Z
}.

#[export] Instance Zero_ContestData : Zero ContestData :=
  {| ContestName := zero; Rank := zero; OldRating := zero; NewRating := zero;
     ContestID := zero |}.

Abbreviation PlatformDataModel := (Schema.PlatformDataModel Z ContestData).
Abbreviation Platforms := (Schema.Platforms Z ContestData).
Abbreviation UserSchema := (Schema.UserSchema Z ContestData).
Abbreviation Document := (Mongo.Document Z ContestData).

Record DBResources := {
  ctx : Context;
  selectedCollection : string * string
}.

Definition OpenDatabaseConnection (newClient_err connect_err : option error) (now : Z)
  : error + DBResources :=
  match newClient_err with
  | Some err => inl err
  | None =>
      let ctx := WithTimeout Background now (10 * Second) in
      match connect_err with
      | Some err => inl err
      | None => inr {| ctx := ctx; selectedCollection := ("UserDB", "users") |}
      end
  end.

Definition GetLastContest (email platform : string) (dbResources : DBResources)
    (now : Z) (coll : list Document) : Outcome ContestData :=
  let opts := Some (platform, contests) in
  documentResult ← orFatal "Couldnt find user"
                     (FindOne (ctx dbResources) now coll email opts);
  doc ← orFatal "Couldnt marshal user" (Marshal documentResult);
  userObject ← orFatal "Couldnt unmarshal user" (Unmarshal doc);
  index (Contests (Leetcode (PlatformData userObject)))
        (len (Contests (Leetcode (PlatformData userObject))) - 1).

Definition GetLastSubmission (email platform : string) (dbResources : DBResources)
    (now : Z) (coll : list Document) : Outcome SubmissionData :=
  let opts := Some (platform, submissions) in
  documentResult ← orFatal "Couldnt find user"
                     (FindOne (ctx dbResources) now coll email opts);
  doc ← orFatal "Couldnt marshal user" (Marshal documentResult);
  userObject ← orFatal "Couldnt unmarshal user" (Unmarshal doc);
  index (Submissions (Leetcode (PlatformData userObject)))
        (len (Submissions (Leetcode (PlatformData userObject))) - 1).

Definition FindContestsandSubmissionsFromDB (dbResources : DBResources)
    (email : string) (now : Z) (coll : list Document)
  : Outcome (slice ContestData * slice SubmissionData) :=
  result ← orFatal "Couldnt find user" (FindOne TODO now coll email None);
  doc ← orFatal "Couldnt marshal user" (Marshal result);
  userObject ← orFatal "Couldnt unmarshal user" (Unmarshal doc);
  _ ← orFatal "Couldnt unmarshal user" (Unmarshal doc);
  platformData ← getPlatformDataDynamically (PlatformData userObject) "Leetcode";
  Ret (Contests platformData, Submissions platformData).

Definition AppendContestData (dbResources : DBResources) (email platform : string)
    (newContestData : slice ContestData) (now : Z) (coll : list Document)
  : Outcome (option error) * list Document :=
  match UpdateOne TODO now coll email platform (EachContests newContestData) with
  | inl err => (Fatal "Couldnt update user" err, coll)
  | inr coll' => (Ret None, coll')
  end.

Definition AppendSubmissionData (dbResources : DBResources) (email platform : string)
    (newSubmissionData : slice SubmissionData) (now : Z) (coll : list Document)
  : Outcome (option error) * list Document :=
  match UpdateOne TODO now coll email platform
          (EachSubmissions (ContestData := ContestData) newSubmissionData) with
  | inl err => (Fatal "Couldnt update user" err, coll)
  | inr coll' => (Ret None, coll')
  end.

End Rev1.

(** ** Sample data *)

Module Sample.
Import Go context Schema Mongo.

Definition weekly300 : Rev2.ContestData :=
  {| Rev2.ContestName := "Weekly 300"; Rev2.ContestDate := "2022-07-03";
     Rev2.Rank := float64_of_Z 1500; Rev2.Rating := float64_of_Z 1600;
     Rev2.Solved := 3; Rev2.ContestID := "300" |}.

Definition with_contests (cs : slice Rev2.ContestData) : Rev2.PlatformDataModel :=
  {| Handle := "alice"; TotalSolved := 42; Ranking := float64_of_Z 1000;
     Contests := cs; Submissions := Some [] |}.

Definition user (platforms : gmap string Rev2.PlatformDataModel) : Rev2.Document :=
  {| email := "a@x.com"; firstName := "A"; lastName := "X"; password := "h";
     platformData := platforms; refreshToken := "t" |}.

(** The user with an empty history on Leetcode, and with one contest. *)
Definition no_history : Rev2.Document :=
  user {[ "leetcode" := with_contests (Some []) ]}.
Definition one_contest : Rev2.Document :=
  user {[ "leetcode" := with_contests (Some [weekly300]) ]}.

(** The handle of a connection opened at time 0. *)
Definition db : Rev2.DBResources :=
  {| Rev2.ctx := WithTimeout Background 0 (10 * Second);
     Rev2.selectedCollection := ("UserDB", "users") |}.

(** Two contests whose identifiers do and do not parse. *)
Definition contest_12345 : Rev2.ContestData :=
  {| Rev2.ContestName := "Biweekly 7"; Rev2.ContestDate := "2019-08-24";
     Rev2.Rank := float64_of_Z 120; Rev2.Rating := float64_of_Z 1700;
     Rev2.Solved := 4; Rev2.ContestID := "12345" |}.

Definition contest_abc : Rev2.ContestData :=
  {| Rev2.ContestName := "Biweekly 7"; Rev2.ContestDate := "2019-08-24";
     Rev2.Rank := float64_of_Z 120; Rev2.Rating := float64_of_Z 1700;
     Rev2.Solved := 4; Rev2.ContestID := "abc" |}.

(** For the older revision: a user with one contest on Leetcode and
    another one on Codeforces. *)
Definition old_weekly : Rev1.ContestData :=
  {| Rev1.ContestName := "Weekly 200"; Rev1.Rank := 1500; Rev1.OldRating := 1550;
     Rev1.NewRating := 1600; Rev1.ContestID := 200 |}.

Definition old_round : Rev1.ContestData :=
  {| Rev1.ContestName := "Round 650"; Rev1.Rank := 900; Rev1.OldRating := 1400;
     Rev1.NewRating := 1450; Rev1.ContestID := 650 |}.

Definition old_platform (cs : slice Rev1.ContestData) : Rev1.PlatformDataModel :=
  {| Handle := "alice"; TotalSolved := 42; Ranking := 1000;
     Contests := cs; Submissions := Some [] |}.

Definition old_user : Rev1.Document :=
  {| email := "a@x.com"; firstName := "A"; lastName := "X"; password := "h";
     platformData := {[ "leetcode" := old_platform (Some [old_weekly]);
                        "codeforces" := old_platform (Some [old_round]) ]};
     refreshToken := "t" |}.

Definition old_db : Rev1.DBResources :=
  {| Rev1.ctx := WithTimeout Background 0 (10 * Second);
     Rev1.selectedCollection := ("UserDB", "users") |}.

(** A submission, and a second user with no platform yet. *)
Definition two_sum : SubmissionData :=
  {| ProblemUrl := "https://leetcode.com/problems/two-sum";
     ProblemName := "Two Sum"; SubmissionDate := "2022-07-04";
     SubmissionLanguage := "go"; SubmissionStatus := "Accepted";
     CodeUrl := "https://leetcode.com/submissions/1" |}.

Definition other_user : Rev2.Document :=
  {| email := "b@x.com"; firstName := "B"; lastName := "X"; password := "h";
     platformData := ∅; refreshToken := "t" |}.
End Sample.

(** ** Vocabulary of the formatter's statements *)

Definition submission_fields (s : Schema.SubmissionData) (o : platformDatapb.Submission) : Prop :=
  platformDatapb.Date o = Schema.SubmissionDate s /\
  platformDatapb.Language o = Schema.SubmissionLanguage s /\
  platformDatapb.ProblemStatus o = Schema.SubmissionStatus s /\
  platformDatapb.ProblemTitle o = Schema.ProblemName s /\
  platformDatapb.ProblemLink o = Schema.ProblemUrl s /\
  platformDatapb.CodeLink o = Schema.CodeUrl s.

Definition contest_fields (c : Rev2.ContestData) (o : platformDatapb.Contest) : Prop :=
  platformDatapb.ContestName o = Rev2.ContestName c /\
  platformDatapb.Rank o = Rev2.Rank c /\
  platformDatapb.Rating o = Rev2.Rating c /\
  strconv.ParseFloat (Rev2.ContestID c) = (platformDatapb.ContestId o, None) /\
  platformDatapb.ContestDate o = Rev2.ContestDate c.


(** Two contests that differ at most in [Solved]. *)
Definition same_but_Solved (c c' : Rev2.ContestData) : Prop :=
  Rev2.ContestName c = Rev2.ContestName c' /\
  Rev2.ContestDate c = Rev2.ContestDate c' /\
  Rev2.Rank c = Rev2.Rank c' /\
  Rev2.Rating c = Rev2.Rating c' /\
  Rev2.ContestID c = Rev2.ContestID c'.

(** The identifier of a contest parses. *)
Definition id_parses (c : Rev2.ContestData) : Prop :=
  snd (strconv.ParseFloat (Rev2.ContestID c)) = None.

(** A string of decimal digits, and the number it writes. *)
Fixpoint all_digits (s : string) : bool :=
  match s with
  | EmptyString => true
  | String c s' => strconv.is_digit c && all_digits s'
  end.

Fixpoint decimal_of (acc : Z) (s : string) : Z :=
  match s with
  | EmptyString => acc
  | String c s' => decimal_of (acc * 10 + strconv.digit_val c) s'
  end.

Definition decimal_value (s : string) : Z := decimal_of 0 s.

(** The identifier of a contest is a number written in decimal digits that
    a [float64] holds exactly. *)
Definition decimal_id (c : Rev2.ContestData) : Prop :=
  Rev2.ContestID c <> EmptyString /\
  all_digits (Rev2.ContestID c) = true /\
  decimal_value (Rev2.ContestID c) < 2 ^ 53.

(** * Facts about the model *)

(** ** Outcomes, slices, contexts *)

Module GoFacts.
Import Go context.

Lemma returns_Ret {A} (a : A) : returns (Ret a).
Proof. by exists a. Qed.

Lemma Fatal_not_returns {A} msg err : ~ returns (@Fatal A msg err).
Proof. by intros [a Ha]. Qed.

Lemma Panic_not_returns {A} msg : ~ returns (@Panic A msg).
Proof. by intros [a Ha]. Qed.

Lemma len_zero {A} (s : slice A) : (len s =? 0) = true <-> elems s = [].
Proof.
  unfold len. rewrite Z.eqb_eq. split.
  - intros H. destruct (elems s); [done | simpl in H; lia].
  - by intros ->.
Qed.

(** Indexing at [len - 1] gives the last element. *)
Lemma index_last {A} (s : slice A) (l : list A) (x : A) :
  elems s = l ++ [x] -> index s (len s - 1) = Ret x.
Proof.
  intros Hs. unfold index, len. rewrite Hs, length_app. simpl.
  replace (Z.of_nat (length l + 1) - 1) with (Z.of_nat (length l)) by lia.
  rewrite Nat2Z.id.
  replace ((0 <=? Z.of_nat (length l)) && (Z.of_nat (length l) <? Z.of_nat (length l + 1)))
    with true by (symmetry; apply andb_true_iff; split; [apply Z.leb_le | apply Z.ltb_lt]; lia).
  by rewrite list_lookup_middle.
Qed.

(** Indexing an empty slice at [len - 1], that is at -1, panics. *)
Lemma index_empty {A} (s : slice A) :
  elems s = [] -> index s (len s - 1) = Panic "index out of range".
Proof. intros Hs. unfold index, len. by rewrite Hs. Qed.

Lemma lower_byte_idemp c : lower_byte (lower_byte c) = lower_byte c.
Proof. destruct c as [[] [] [] [] [] [] [] []]; reflexivity. Qed.

Lemma ToLower_idemp s : ToLower (ToLower s) = ToLower s.
Proof. induction s as [|c s IH]; simpl; [done|]. by rewrite lower_byte_idemp, IH. Qed.

Lemma lower_ascii_ToLower s : lower_ascii s = true -> ToLower s = s.
Proof.
  induction s as [|c s IH]; simpl; [done|].
  intros H. apply andb_true_iff in H as [H Hs]. apply andb_true_iff in H as [_ Hc].
  rewrite IH by done. f_equal. unfold lower_byte.
  by destruct ((65 <=? N_of_ascii c)%N && (N_of_ascii c <=? 90)%N).
Qed.

Lemma Err_TODO now : Err TODO now = None.
Proof. done. Qed.

Lemma Err_WithTimeout_Background t0 timeout now :
  Err (WithTimeout Background t0 timeout) now
  = if t0 + timeout <=? now then Some DeadlineExceeded else None.
Proof. done. Qed.

End GoFacts.

(** ** The collection and the resolver *)

Module MongoFacts.
Import Go context Schema Mongo GoFacts.

Section Collection.
Context {ranking_t ContestData : Type} `{!Zero ranking_t}.

Abbreviation PlatformDataModel := (Schema.PlatformDataModel ranking_t ContestData).
Abbreviation Platforms := (Schema.Platforms ranking_t ContestData).
Abbreviation Document := (Mongo.Document ranking_t ContestData).

Implicit Types (d : Document) (coll : list Document) (p : PlatformDataModel).

Lemma update_first_unmatched e (f : Document -> Document) coll :
  find_first e coll = None -> update_first e f coll = coll.
Proof.
  induction coll as [|d0 coll IH]; simpl; [done|].
  destruct (matches e d0); [done|]. intros H. by rewrite IH.
Qed.

Lemma update_first_fixed e (f : Document -> Document) coll d :
  find_first e coll = Some d -> f d = d -> update_first e f coll = coll.
Proof.
  induction coll as [|d0 coll IH]; simpl; [done|].
  destruct (matches e d0).
  - intros [= ->] ->. done.
  - intros H1 H2. by rewrite IH.
Qed.

Lemma find_first_update_first e (f : Document -> Document) coll :
  (forall d, email (f d) = email d) ->
  find_first e (update_first e f coll) = f <$> find_first e coll.
Proof.
  intros Hf. induction coll as [|d0 coll IH]; simpl; [done|].
  destruct (matches e d0) eqn:Hm; simpl.
  - unfold matches in *. by rewrite Hf, Hm.
  - by rewrite Hm.
Qed.

Lemma find_first_update_first_ne e e' (f : Document -> Document) coll :
  (forall d, email (f d) = email d) -> e' <> e ->
  find_first e' (update_first e f coll) = find_first e' coll.
Proof.
  intros Hf Hne. induction coll as [|d0 coll IH]; simpl; [done|].
  destruct (matches e d0) eqn:Hm; simpl.
  - unfold matches in *. rewrite Hf.
    apply bool_decide_eq_true in Hm.
    rewrite !bool_decide_eq_false_2 by congruence. done.
  - by rewrite IH.
Qed.

Lemma update_first_length e (f : Document -> Document) coll :
  length (update_first e f coll) = length coll.
Proof.
  induction coll as [|d0 coll IH]; simpl; [done|].
  destruct (matches e d0); simpl; by rewrite ?IH.
Qed.

(** Every document after [update_first] is the one before, or its
    image under [f]. *)
Lemma update_first_lookup e (f : Document -> Document) coll i d :
  coll !! i = Some d ->
  update_first e f coll !! i = Some d \/ update_first e f coll !! i = Some (f d).
Proof.
  revert i. induction coll as [|d0 coll IH]; intros i; [done|].
  simpl. destruct (matches e d0).
  - destruct i as [|i]; simpl; [intros [= ->]; by right | by left].
  - destruct i as [|i]; simpl; [by left | apply IH].
Qed.

Lemma sub_document_set key p d k :
  sub_document k (set_sub_document key p d)
  = if decide (key = k) then p else sub_document k d.
Proof.
  unfold sub_document, set_sub_document. simpl.
  rewrite lookup_insert. by case_decide.
Qed.

Lemma only_zero f : only f (zero : PlatformDataModel) = zero.
Proof. by destruct f. Qed.

(** What a projected document holds. *)
Lemma platformData_project key f d :
  platformData (project key f d)
  = match platformData d !! key with
    | Some p => {[ key := only f p ]}
    | None => ∅
    end.
Proof. done. Qed.

(** Decoding a field: from a document with one key, with no key, and with
    keys in lower case. *)
Lemma decode_platform_singleton key p fieldName :
  decode_platform ({[ key := p ]} : gmap string PlatformDataModel) fieldName
  = if decide (ToLower key = ToLower fieldName) then p else zero.
Proof.
  unfold decode_platform. rewrite map_to_list_singleton, filter_cons, filter_nil.
  unfold decodes_to. simpl. repeat case_decide; done.
Qed.

Lemma decode_platform_empty fieldName :
  decode_platform (∅ : gmap string PlatformDataModel) fieldName = zero.
Proof. unfold decode_platform. by rewrite map_to_list_empty. Qed.

Lemma decode_platform_lower d fieldName :
  lower_case_keys d ->
  decode_platform (platformData d) fieldName = sub_document (ToLower fieldName) d.
Proof.
  intros Hkeys. unfold decode_platform, sub_document.
  destruct (filter _ _) as [|[k p] l] eqn:Hf.
  - destruct (platformData d !! ToLower fieldName) as [p|] eqn:Hp; [|done].
    exfalso. eapply (filter_nil_not_elem_of _ _ (ToLower fieldName, p) Hf).
    + unfold decodes_to. simpl. apply ToLower_idemp.
    + by apply elem_of_map_to_list.
  - assert (Hin : (k, p) ∈ filter (decodes_to fieldName) (map_to_list (platformData d)))
      by (rewrite Hf; left).
    apply list_elem_of_filter in Hin as [Hk Hin].
    apply elem_of_map_to_list in Hin.
    unfold decodes_to in Hk. simpl in Hk.
    rewrite (lower_ascii_ToLower k) in Hk by eauto. subst k. by rewrite Hin.
Qed.

Lemma decode_platform_project key f d fieldName :
  decode_platform (platformData (project key f d)) fieldName
  = if decide (ToLower key = ToLower fieldName) then only f (sub_document key d) else zero.
Proof.
  rewrite platformData_project. unfold sub_document.
  destruct (platformData d !! key) as [p|]; simpl.
  - apply decode_platform_singleton.
  - rewrite decode_platform_empty, only_zero. by case_decide.
Qed.

(** The resolver on a decoded document: for the name of a field, what the
    decoder put into that field. *)
Lemma resolver_decode (doc : Document) name :
  In name platform_names ->
  getPlatformDataDynamically (PlatformData (decode doc)) name
  = Ret (decode_platform (platformData doc) name).
Proof.
  simpl. intros [<-|[<-|[<-|[<-|[<-|[<-|[]]]]]]]; reflexivity.
Qed.

Lemma FieldByName_not_field (pd : Platforms) name :
  ~ In name platform_names -> FieldByName pd name = None.
Proof.
  simpl. intros Hn. unfold FieldByName.
  repeat (case_decide; [subst; exfalso; apply Hn; tauto|]). done.
Qed.

Lemma resolver_not_field (pd : Platforms) name :
  ~ In name platform_names ->
  getPlatformDataDynamically pd name
  = Panic "reflect: call of reflect.Value.Interface on zero Value".
Proof.
  intros Hn. unfold getPlatformDataDynamically. by rewrite FieldByName_not_field.
Qed.

End Collection.
End MongoFacts.

(** ** The current revision: what each operation computes *)

Module Rev2Facts.
Import Go context Schema Mongo GoFacts MongoFacts Rev2.

Implicit Types (d : Rev2.Document) (coll : list Rev2.Document).

Lemma GetLastContest_found email platform db now coll d :
  Err (ctx db) now = None ->
  find_first email coll = Some d ->
  In platform platform_names ->
  GetLastContest email platform db now coll
  = if len (contest_log (ToLower platform) d) =? 0 then Ret zero
    else index (contest_log (ToLower platform) d)
               (len (contest_log (ToLower platform) d) - 1).
Proof.
  intros Hctx Hfind Hname. unfold GetLastContest, FindOne.
  rewrite Hctx, Hfind. unfold Marshal, Unmarshal. cbn [orFatal mbind Outcome_bind].
  rewrite resolver_decode by done. cbn [mbind Outcome_bind].
  rewrite decode_platform_project, decide_True by apply ToLower_idemp. done.
Qed.

Lemma GetLastSubmission_found email platform db now coll d :
  Err (ctx db) now = None ->
  find_first email coll = Some d ->
  In platform platform_names ->
  GetLastSubmission email platform db now coll
  = if len (submission_log (ToLower platform) d) =? 0 then Ret zero
    else index (submission_log (ToLower platform) d)
               (len (submission_log (ToLower platform) d) - 1).
Proof.
  intros Hctx Hfind Hname. unfold GetLastSubmission, FindOne.
  rewrite Hctx, Hfind. unfold Marshal, Unmarshal. cbn [orFatal mbind Outcome_bind].
  rewrite resolver_decode by done. cbn [mbind Outcome_bind].
  rewrite decode_platform_project, decide_True by apply ToLower_idemp. done.
Qed.

Lemma FindContestsandSubmissionsFromDB_found db email platform now coll d :
  find_first email coll = Some d ->
  lower_case_keys d ->
  In platform platform_names ->
  FindContestsandSubmissionsFromDB db email platform now coll
  = Ret (contest_log (ToLower platform) d, submission_log (ToLower platform) d).
Proof.
  intros Hfind Hkeys Hname. unfold FindContestsandSubmissionsFromDB, FindOne.
  rewrite Err_TODO, Hfind. unfold Marshal, Unmarshal. cbn [orFatal mbind Outcome_bind].
  rewrite resolver_decode by done. by rewrite decode_platform_lower.
Qed.

(** An append of a non-nil sequence. *)
Lemma AppendContestData_elems db email platform vs now coll :
  AppendContestData db email platform (Some vs) now coll
  = (Ret None, update_first email (pushed_contests (ToLower platform) vs) coll).
Proof. done. Qed.

Lemma AppendSubmissionData_elems db email platform vs now coll :
  AppendSubmissionData db email platform (Some vs) now coll
  = (Ret None, update_first email (pushed_submissions (ToLower platform) vs) coll).
Proof. done. Qed.

End Rev2Facts.

(** ** What [$push] changes in a document *)

Module PushFacts.
Import Go context Schema Mongo GoFacts MongoFacts.

Section Push.
Context {ranking_t ContestData : Type} `{!Zero ranking_t}.

Implicit Types (d : Mongo.Document ranking_t ContestData).

Lemma same_elsewhere_set key p d : same_elsewhere key d (set_sub_document key p d).
Proof.
  unfold same_elsewhere, set_sub_document. simpl.
  repeat split. intros k Hk. by rewrite lookup_insert_ne.
Qed.

Lemma lower_case_keys_set key p d :
  lower_ascii key = true -> lower_case_keys d -> lower_case_keys (set_sub_document key p d).
Proof.
  intros Hkey Hd k. unfold set_sub_document. simpl.
  rewrite lookup_insert. case_decide; [by subst | apply Hd].
Qed.

Lemma contest_log_pushed key (vs : list ContestData) d :
  contest_log key (pushed_contests key vs d) = Some (elems (contest_log key d) ++ vs).
Proof.
  unfold contest_log, pushed_contests. rewrite sub_document_set.
  by rewrite decide_True.
Qed.

Lemma submission_log_pushed key vs d :
  submission_log key (pushed_submissions key vs d)
  = Some (elems (submission_log key d) ++ vs).
Proof.
  unfold submission_log, pushed_submissions. rewrite sub_document_set.
  by rewrite decide_True.
Qed.

Lemma pushed_contests_extended key (vs : list ContestData) d :
  contests_extended key vs d (pushed_contests key vs d).
Proof.
  unfold contests_extended. split; [apply same_elsewhere_set|].
  rewrite contest_log_pushed.
  unfold same_scalars, submission_log, pushed_contests.
  rewrite sub_document_set, decide_True by done. done.
Qed.

Lemma pushed_submissions_extended key vs d :
  submissions_extended key vs d (pushed_submissions key vs d).
Proof.
  unfold submissions_extended. split; [apply same_elsewhere_set|].
  rewrite submission_log_pushed.
  unfold same_scalars, contest_log, pushed_submissions.
  rewrite sub_document_set, decide_True by done. done.
Qed.

(** Pushing no element onto an array the document has changes
    nothing. *)
Lemma pushed_contests_nil key d l :
  Contests <$> platformData d !! key = Some (Some l) ->
  pushed_contests key [] d = d.
Proof.
  intros H. destruct (platformData d !! key) as [p|] eqn:Hp; [|done].
  simpl in H. injection H as H.
  unfold pushed_contests, set_sub_document, sub_document. rewrite Hp. simpl.
  destruct d as [e fn ln pw pd rt]. simpl in *. f_equal.
  apply insert_id. rewrite Hp. f_equal.
  destruct p as [h ts rk cs ss]. unfold push_contests. simpl in *.
  subst cs. simpl. by rewrite app_nil_r.
Qed.

Lemma pushed_submissions_nil key d l :
  Submissions <$> platformData d !! key = Some (Some l) ->
  pushed_submissions key [] d = d.
Proof.
  intros H. destruct (platformData d !! key) as [p|] eqn:Hp; [|done].
  simpl in H. injection H as H.
  unfold pushed_submissions, set_sub_document, sub_document. rewrite Hp. simpl.
  destruct d as [e fn ln pw pd rt]. simpl in *. f_equal.
  apply insert_id. rewrite Hp. f_equal.
  destruct p as [h ts rk cs ss]. unfold push_submissions. simpl in *.
  subst ss. simpl. by rewrite app_nil_r.
Qed.

End Push.
End PushFacts.

(** ** Two appends in a row *)

Module AppendFacts.
Import Go context Schema Mongo GoFacts MongoFacts PushFacts Rev2 Rev2Facts.

Lemma update_first_twice {ranking_t ContestData : Type} e
    (f g : Mongo.Document ranking_t ContestData -> Mongo.Document ranking_t ContestData) coll :
  (forall d, email (f d) = email d) ->
  update_first e g (update_first e f coll) = update_first e (fun d => g (f d)) coll.
Proof.
  intros Hf. induction coll as [|d0 coll IH]; simpl; [done|].
  destruct (matches e d0) eqn:Hm; simpl.
  - unfold matches in *. by rewrite Hf, Hm.
  - by rewrite Hm, IH.
Qed.

Lemma pushed_contests_twice {ranking_t ContestData : Type} `{!Zero ranking_t}
    key (xs ys : list ContestData) (d : Mongo.Document ranking_t ContestData) :
  pushed_contests key ys (pushed_contests key xs d) = pushed_contests key (xs ++ ys) d.
Proof.
  unfold pushed_contests. rewrite sub_document_set, decide_True by done.
  unfold set_sub_document, push_contests. simpl.
  rewrite insert_insert_eq. by rewrite app_assoc.
Qed.

(** Two appends to the contest log of an existing user: both succeed,
    and the user's document is the first one with both sequences added
    in order at the end of that log. *)
Lemma AppendContestData_twice db email platform xs ys t1 t2 coll d :
  find_first email coll = Some d ->
  exists coll1 coll2,
    AppendContestData db email platform (Some xs) t1 coll = (Ret None, coll1) /\
    AppendContestData db email platform (Some ys) t2 coll1 = (Ret None, coll2) /\
    find_first email coll2 = Some (pushed_contests (ToLower platform) (xs ++ ys) d).
Proof.
  intros Hfind. eexists _, _. split; [apply AppendContestData_elems|].
  split; [apply AppendContestData_elems|].
  rewrite update_first_twice by done.
  rewrite find_first_update_first by done.
  rewrite Hfind. simpl. by rewrite pushed_contests_twice.
Qed.

End AppendFacts.

(** * The statements of the specification *)

Import Go context Schema Mongo strconv.
Import GoFacts MongoFacts PushFacts Rev2Facts AppendFacts.

(** ** Last elements and appends *)

(** The storage key of a field's name is ASCII in lower case. *)
Lemma field_key_lower_ascii name :
  In name platform_names -> lower_ascii (ToLower name) = true.
Proof. simpl. intros [<-|[<-|[<-|[<-|[<-|[<-|[]]]]]]]; reflexivity. Qed.

(** C1. For a user that has a document and a platform named as a field of
    [Platforms], at a time the connection's context allows the read: when
    the stored contest log is empty (absent or without entries)
    [GetLastContest] returns the [ContestData] whose every field is the
    zero value of its type, and when the stored submission log is empty
    [GetLastSubmission] returns the zero-valued [SubmissionData]. *)
Theorem GetLast_of_empty_log email platform db now (coll : list Rev2.Document) d :
  Err (Rev2.ctx db) now = None ->
  find_first email coll = Some d ->
  In platform platform_names ->
  (elems (contest_log (ToLower platform) d) = [] ->
   Rev2.GetLastContest email platform db now coll
   = Ret {| Rev2.ContestName := ""; Rev2.ContestDate := ""; Rev2.Rank := S754_zero false;
            Rev2.Rating := S754_zero false; Rev2.Solved := 0; Rev2.ContestID := "" |}) /\
  (elems (submission_log (ToLower platform) d) = [] ->
   Rev2.GetLastSubmission email platform db now coll
   = Ret {| ProblemUrl := ""; ProblemName := ""; SubmissionDate := "";
            SubmissionLanguage := ""; SubmissionStatus := ""; CodeUrl := "" |}).
Proof.
  intros Hctx Hfind Hname. split; intros Hempty.
  - rewrite (GetLastContest_found _ _ _ _ _ _ Hctx Hfind Hname).
    apply len_zero in Hempty. by rewrite Hempty.
  - rewrite (GetLastSubmission_found _ _ _ _ _ _ Hctx Hfind Hname).
    apply len_zero in Hempty. by rewrite Hempty.
Qed.

Lemma GetLast_of_empty_log_witness :
  Err (Rev2.ctx Sample.db) 5 = None /\
  find_first "a@x.com" [Sample.no_history] = Some Sample.no_history /\
  In "Leetcode" platform_names /\
  Rev2.GetLastContest "a@x.com" "Leetcode" Sample.db 5 [Sample.no_history]
  = Ret Rev2.Zero_ContestData /\
  Rev2.GetLastSubmission "a@x.com" "Leetcode" Sample.db 5 [Sample.no_history]
  = Ret Zero_SubmissionData.
Proof.
  assert (H1 : Err (Rev2.ctx Sample.db) 5 = None) by reflexivity.
  assert (H2 : find_first "a@x.com" [Sample.no_history] = Some Sample.no_history)
    by reflexivity.
  assert (H3 : In "Leetcode" platform_names) by (simpl; auto).
  destruct (GetLast_of_empty_log "a@x.com" "Leetcode" Sample.db 5
              [Sample.no_history] Sample.no_history H1 H2 H3) as [Hc Hs].
  refine (conj H1 (conj H2 (conj H3 (conj (Hc _) (Hs _))))); reflexivity.
Defined.

(** C2. For a user that has a document and a platform named as a field of
    [Platforms]: [AppendContestData] with [[c1; c2]] and then with [[c3]]
    both succeed and leave the user's document as it was, but for the
    contest log of that platform, which is the prior log followed by [c1],
    [c2], [c3] in that order; the documents of other users are as before.
    After the two appends [GetLastContest] returns [c3] and
    [FindContestsandSubmissionsFromDB] returns the whole log, ending in
    [c1], [c2], [c3], with the submission log as it was.  The user's
    document has its keys under [platformData] in lower case, and the
    read through the connection's context happens before its deadline. *)
Theorem AppendContests_then_read email platform db (coll : list Rev2.Document) d
    c1 c2 c3 t1 t2 t3 t4 :
  find_first email coll = Some d ->
  lower_case_keys d ->
  In platform platform_names ->
  Err (Rev2.ctx db) t3 = None ->
  exists coll1 coll2 d2,
    Rev2.AppendContestData db email platform (Some [c1; c2]) t1 coll = (Ret None, coll1) /\
    Rev2.AppendContestData db email platform (Some [c3]) t2 coll1 = (Ret None, coll2) /\
    find_first email coll2 = Some d2 /\
    (forall email', email' <> email -> find_first email' coll2 = find_first email' coll) /\
    contests_extended (ToLower platform) [c1; c2; c3] d d2 /\
    contest_log (ToLower platform) d2
    = Some (elems (contest_log (ToLower platform) d) ++ [c1; c2; c3]) /\
    Rev2.GetLastContest email platform db t3 coll2 = Ret c3 /\
    Rev2.FindContestsandSubmissionsFromDB db email platform t4 coll2
    = Ret (Some (elems (contest_log (ToLower platform) d) ++ [c1; c2; c3]),
           submission_log (ToLower platform) d).
Proof.
  intros Hfind Hkeys Hname Hctx.
  destruct (AppendContestData_twice db email platform [c1; c2] [c3] t1 t2 coll d Hfind)
    as (coll1 & coll2 & H1 & H2 & Hfind2).
  simpl in Hfind2.
  set (key := ToLower platform) in *.
  set (d2 := pushed_contests key [c1; c2; c3] d) in *.
  assert (Hlog : contest_log key d2 = Some (elems (contest_log key d) ++ [c1; c2; c3]))
    by apply contest_log_pushed.
  assert (Hext : contests_extended key [c1; c2; c3] d d2)
    by apply pushed_contests_extended.
  exists coll1, coll2, d2. repeat (split; [done|]).
  split.
  { intros email' Hne.
    rewrite AppendContestData_elems in H1, H2.
    injection H1 as <-. injection H2 as <-.
    by rewrite !find_first_update_first_ne. }
  repeat (split; [done|]).
  split.
  - rewrite (GetLastContest_found _ _ _ _ _ _ Hctx Hfind2 Hname). fold key.
    assert (Hel : elems (contest_log key d2) = (elems (contest_log key d) ++ [c1; c2]) ++ [c3]).
    { rewrite Hlog. simpl. by rewrite <- app_assoc. }
    rewrite (index_last _ _ _ Hel).
    destruct (len (contest_log key d2) =? 0) eqn:Hlen; [|done].
    apply len_zero in Hlen. rewrite Hel in Hlen. by destruct (elems (contest_log key d) ++ [c1; c2]).
  - assert (Hkeys2 : lower_case_keys d2)
      by (apply lower_case_keys_set; [by apply field_key_lower_ascii | done]).
    rewrite (FindContestsandSubmissionsFromDB_found _ _ _ _ _ _ Hfind2 Hkeys2 Hname).
    fold key. rewrite Hlog. do 2 f_equal. apply Hext.
Qed.

Lemma no_history_lower_case_keys : lower_case_keys Sample.no_history.
Proof.
  intros key [p Hp]. unfold Sample.no_history, Sample.user in Hp. simpl in Hp.
  apply lookup_singleton_Some in Hp as [<- _]. reflexivity.
Qed.

Lemma AppendContests_then_read_witness :
  find_first "a@x.com" [Sample.no_history] = Some Sample.no_history /\
  lower_case_keys Sample.no_history /\
  In "Leetcode" platform_names /\
  Err (Rev2.ctx Sample.db) 5 = None /\
  exists coll1 coll2,
    Rev2.AppendContestData Sample.db "a@x.com" "Leetcode"
      (Some [Sample.contest_12345; Sample.contest_abc]) 1 [Sample.no_history]
    = (Ret None, coll1) /\
    Rev2.AppendContestData Sample.db "a@x.com" "Leetcode"
      (Some [Sample.weekly300]) 2 coll1 = (Ret None, coll2) /\
    Rev2.GetLastContest "a@x.com" "Leetcode" Sample.db 5 coll2 = Ret Sample.weekly300.
Proof.
  assert (H1 : find_first "a@x.com" [Sample.no_history] = Some Sample.no_history)
    by reflexivity.
  assert (H2 : In "Leetcode" platform_names) by (simpl; auto).
  assert (H3 : Err (Rev2.ctx Sample.db) 5 = None) by reflexivity.
  destruct (AppendContests_then_read "a@x.com" "Leetcode" Sample.db [Sample.no_history]
              Sample.no_history Sample.contest_12345 Sample.contest_abc Sample.weekly300
              1 2 5 6 H1 no_history_lower_case_keys H2 H3)
    as (coll1 & coll2 & d2 & Ha & Hb & _ & _ & _ & _ & Hlast & _).
  refine (conj H1 (conj no_history_lower_case_keys (conj H2 (conj H3 _)))).
  exists coll1, coll2. exact (conj Ha (conj Hb Hlast)).
Defined.

(** ** Reads that do not find the user, or the platform *)

Lemma FindOne_unmatched ctx0 now (coll : list Rev2.Document) email projection :
  find_first email coll = None ->
  FindOne ctx0 now coll email projection = inl (default ErrNoDocuments (Err ctx0 now)).
Proof.
  intros Hfind. unfold FindOne. rewrite Hfind. by destruct (Err ctx0 now).
Qed.

Lemma GetLastContest_not_field email name db now (coll : list Rev2.Document) :
  ~ In name platform_names ->
  Rev2.GetLastContest email name db now coll
  = match FindOne (Rev2.ctx db) now coll email (Some (ToLower name, contests)) with
    | inl err => Fatal "Couldnt find user" err
    | inr _ => Panic "reflect: call of reflect.Value.Interface on zero Value"
    end.
Proof.
  intros Hname. unfold Rev2.GetLastContest.
  destruct (FindOne _ _ _ _ _) as [err|doc]; [done|].
  unfold Marshal, Unmarshal. cbn [orFatal mbind Outcome_bind].
  by rewrite resolver_not_field.
Qed.

Lemma GetLastSubmission_not_field email name db now (coll : list Rev2.Document) :
  ~ In name platform_names ->
  Rev2.GetLastSubmission email name db now coll
  = match FindOne (Rev2.ctx db) now coll email (Some (ToLower name, submissions)) with
    | inl err => Fatal "Couldnt find user" err
    | inr _ => Panic "reflect: call of reflect.Value.Interface on zero Value"
    end.
Proof.
  intros Hname. unfold Rev2.GetLastSubmission.
  destruct (FindOne _ _ _ _ _) as [err|doc]; [done|].
  unfold Marshal, Unmarshal. cbn [orFatal mbind Outcome_bind].
  by rewrite resolver_not_field.
Qed.

Lemma FindContestsandSubmissionsFromDB_not_field db email name now (coll : list Rev2.Document) :
  ~ In name platform_names ->
  Rev2.FindContestsandSubmissionsFromDB db email name now coll
  = match FindOne TODO now coll email None with
    | inl err => Fatal "Couldnt find user" err
    | inr _ => Panic "reflect: call of reflect.Value.Interface on zero Value"
    end.
Proof.
  intros Hname. unfold Rev2.FindContestsandSubmissionsFromDB.
  destruct (FindOne _ _ _ _ _) as [err|doc]; [done|].
  unfold Marshal, Unmarshal. cbn [orFatal mbind Outcome_bind].
  by rewrite resolver_not_field.
Qed.

Lemma reads_of_a_name_that_is_no_field email name db now (coll : list Rev2.Document) :
  ~ In name platform_names ->
  ~ returns (Rev2.GetLastContest email name db now coll) /\
  ~ returns (Rev2.GetLastSubmission email name db now coll) /\
  ~ returns (Rev2.FindContestsandSubmissionsFromDB db email name now coll).
Proof.
  intros Hname.
  rewrite GetLastContest_not_field, GetLastSubmission_not_field,
    FindContestsandSubmissionsFromDB_not_field by done.
  repeat split; destruct (FindOne _ _ _ _ _);
    (apply Fatal_not_returns || apply Panic_not_returns).
Qed.

(** C3 (as stated, refuted). For an email no document has, the two append
    operations return nil, which is success, and leave the collection as
    it is; [GetLastContest] does not return an error either: the process
    is ended by [log.Fatalf]. *)
Lemma unknown_email_append_reports_success :
  find_first "nobody@x.com" [Sample.one_contest] = None /\
  Rev2.AppendContestData Sample.db "nobody@x.com" "Leetcode" (Some [Sample.weekly300])
    5 [Sample.one_contest] = (Ret None, [Sample.one_contest]) /\
  Rev2.AppendSubmissionData Sample.db "nobody@x.com" "Leetcode" (Some [zero])
    5 [Sample.one_contest] = (Ret None, [Sample.one_contest]) /\
  Rev2.GetLastContest "nobody@x.com" "Leetcode" Sample.db 5 [Sample.one_contest]
  = Fatal "Couldnt find user" ErrNoDocuments.
Proof. repeat split. Qed.

(** C3 (amended). For an email no document has, [GetLastContest],
    [GetLastSubmission] and [FindContestsandSubmissionsFromDB] do not
    return: [log.Fatalf] logs "Couldnt find user" with the driver's error
    and ends the process.  None of them returns a zero-valued result. *)
Theorem read_of_unknown_email_is_fatal email platform db now (coll : list Rev2.Document) :
  find_first email coll = None ->
  (exists err, Rev2.GetLastContest email platform db now coll
               = Fatal "Couldnt find user" err) /\
  (exists err, Rev2.GetLastSubmission email platform db now coll
               = Fatal "Couldnt find user" err) /\
  Rev2.FindContestsandSubmissionsFromDB db email platform now coll
  = Fatal "Couldnt find user" ErrNoDocuments.
Proof.
  intros Hfind.
  unfold Rev2.GetLastContest, Rev2.GetLastSubmission, Rev2.FindContestsandSubmissionsFromDB.
  rewrite !FindOne_unmatched by done. eauto.
Qed.

Lemma read_of_unknown_email_is_fatal_witness :
  find_first "nobody@x.com" [Sample.one_contest] = None /\
  (exists err, Rev2.GetLastContest "nobody@x.com" "Leetcode" Sample.db 5 [Sample.one_contest]
               = Fatal "Couldnt find user" err) /\
  (exists err, Rev2.GetLastSubmission "nobody@x.com" "Leetcode" Sample.db 5 [Sample.one_contest]
               = Fatal "Couldnt find user" err) /\
  Rev2.FindContestsandSubmissionsFromDB Sample.db "nobody@x.com" "Leetcode" 5
    [Sample.one_contest]
  = Fatal "Couldnt find user" ErrNoDocuments.
Proof.
  assert (H : find_first "nobody@x.com" [Sample.one_contest] = None) by reflexivity.
  exact (conj H (read_of_unknown_email_is_fatal "nobody@x.com" "Leetcode" Sample.db 5
                   [Sample.one_contest] H)).
Defined.

(** ** Platform names *)

(** The names of the fields differ also when case is ignored. *)
Lemma field_of_lower name name' :
  In name platform_names -> In name' platform_names ->
  ToLower name' = ToLower name -> name' = name.
Proof.
  simpl.
  intros [<-|[<-|[<-|[<-|[<-|[<-|[]]]]]]] [<-|[<-|[<-|[<-|[<-|[<-|[]]]]]]];
    (reflexivity || (intros H; discriminate H)).
Qed.

(** C4 (as stated, refuted). On a name that is no field of [Platforms] the
    resolver does not return an error: it panics, and so does the read
    that called it. *)
Lemma resolver_on_unknown_name_panics :
  getPlatformDataDynamically (PlatformData (decode Sample.one_contest)) "Topcoder"
  = Panic "reflect: call of reflect.Value.Interface on zero Value" /\
  Rev2.GetLastContest "a@x.com" "Topcoder" Sample.db 5 [Sample.one_contest]
  = Panic "reflect: call of reflect.Value.Interface on zero Value".
Proof. split; reflexivity. Qed.

(** C4 (amended). For every name that is not the name of a field of
    [Platforms] (Leetcode, Codeforces, Codechef, Cpoj, Hackerearth,
    Atcoder, spelled so), the resolver panics instead of returning, and
    no read operation that uses it returns anything: neither another
    platform's data nor a zero value. *)
Theorem unknown_platform_never_returns name :
  ~ In name platform_names ->
  (forall pd : Rev2.Platforms,
     getPlatformDataDynamically pd name
     = Panic "reflect: call of reflect.Value.Interface on zero Value") /\
  (forall email db now (coll : list Rev2.Document),
     ~ returns (Rev2.GetLastContest email name db now coll) /\
     ~ returns (Rev2.GetLastSubmission email name db now coll) /\
     ~ returns (Rev2.FindContestsandSubmissionsFromDB db email name now coll)).
Proof.
  intros Hname. split.
  - intros pd. by apply resolver_not_field.
  - intros email db now coll. by apply reads_of_a_name_that_is_no_field.
Qed.

Lemma unknown_platform_never_returns_witness :
  ~ In "Topcoder" platform_names /\
  (forall pd : Rev2.Platforms,
     getPlatformDataDynamically pd "Topcoder"
     = Panic "reflect: call of reflect.Value.Interface on zero Value") /\
  ~ returns (Rev2.GetLastContest "a@x.com" "Topcoder" Sample.db 5 [Sample.one_contest]).
Proof.
  assert (H : ~ In "Topcoder" platform_names).
  { simpl. intros [H|[H|[H|[H|[H|[H|[]]]]]]]; discriminate H. }
  destruct (unknown_platform_never_returns "Topcoder" H) as [Hres Hops].
  exact (conj H (conj Hres (proj1 (Hops "a@x.com" Sample.db 5 [Sample.one_contest])))).
Defined.

(** C5 (as stated, refuted). The storage path is lower-cased, the resolver
    is not: with the name in lower case the projection addresses the same
    log, and the read panics in the resolver instead of returning the
    entry it returns for the field's own spelling. *)
Lemma lower_case_name_is_not_resolved :
  ToLower "leetcode" = ToLower "Leetcode" /\
  Rev2.GetLastContest "a@x.com" "Leetcode" Sample.db 5 [Sample.one_contest]
  = Ret Sample.weekly300 /\
  Rev2.GetLastContest "a@x.com" "leetcode" Sample.db 5 [Sample.one_contest]
  = Panic "reflect: call of reflect.Value.Interface on zero Value".
Proof. repeat split. Qed.

(** C5 (amended). For a platform named as the field of [Platforms] is
    spelled, the key of the storage path, which is the name in lower case,
    holds the very sub-document the in-memory resolver selects: in the
    document a projection on that key returns, and in a whole document
    whose keys are in lower case.  The two append operations address that
    key for every casing of the name.  The read operations resolve the
    field's own spelling only: with any other casing they do not
    return. *)
Theorem platform_addressing name :
  In name platform_names ->
  (forall (doc : Rev2.Document) f,
     getPlatformDataDynamically (PlatformData (decode (project (ToLower name) f doc))) name
     = Ret (only f (sub_document (ToLower name) doc))) /\
  (forall doc : Rev2.Document,
     lower_case_keys doc ->
     getPlatformDataDynamically (PlatformData (decode doc)) name
     = Ret (sub_document (ToLower name) doc)) /\
  (forall casing, ToLower casing = ToLower name ->
     forall db email now (coll : list Rev2.Document),
       (forall vs, Rev2.AppendContestData db email casing vs now coll
                   = Rev2.AppendContestData db email name vs now coll) /\
       (forall vs, Rev2.AppendSubmissionData db email casing vs now coll
                   = Rev2.AppendSubmissionData db email name vs now coll) /\
       (casing <> name ->
          ~ returns (Rev2.GetLastContest email casing db now coll) /\
          ~ returns (Rev2.GetLastSubmission email casing db now coll) /\
          ~ returns (Rev2.FindContestsandSubmissionsFromDB db email casing now coll))).
Proof.
  intros Hname. split; [|split].
  - intros doc f. rewrite resolver_decode by done.
    by rewrite decode_platform_project, decide_True by apply ToLower_idemp.
  - intros doc Hkeys. rewrite resolver_decode by done.
    by rewrite decode_platform_lower.
  - intros casing Hcase db email now coll. split; [|split].
    + intros vs. unfold Rev2.AppendContestData. by rewrite Hcase.
    + intros vs. unfold Rev2.AppendSubmissionData. by rewrite Hcase.
    + intros Hne. apply reads_of_a_name_that_is_no_field.
      intros Hin. apply Hne. by apply field_of_lower.
Qed.

Lemma platform_addressing_witness :
  In "Leetcode" platform_names /\
  getPlatformDataDynamically
    (PlatformData (decode (project "leetcode" contests Sample.one_contest))) "Leetcode"
  = Ret (only contests (sub_document "leetcode" Sample.one_contest)) /\
  Rev2.AppendContestData Sample.db "a@x.com" "LEETCODE" (Some [Sample.weekly300])
    5 [Sample.one_contest]
  = Rev2.AppendContestData Sample.db "a@x.com" "Leetcode" (Some [Sample.weekly300])
      5 [Sample.one_contest].
Proof.
  assert (H : In "Leetcode" platform_names) by (simpl; auto).
  destruct (platform_addressing "Leetcode" H) as (Hres & _ & Hops).
  destruct (Hops "LEETCODE" eq_refl Sample.db "a@x.com" 5 [Sample.one_contest])
    as [Hc _].
  exact (conj H (conj (Hres Sample.one_contest contests) (Hc (Some [Sample.weekly300])))).
Defined.

(** ** The response formatter *)

Lemma submission_loop_elems l acc :
  elems (Rev2.submission_loop l acc) = elems acc ++ map Rev2.submissionResponseObject l.
Proof.
  revert acc. induction l as [|s l IH]; intros acc; simpl.
  - by rewrite app_nil_r.
  - rewrite IH. unfold append. simpl. by rewrite <- app_assoc.
Qed.

Lemma submission_fields_object s : submission_fields s (Rev2.submissionResponseObject s).
Proof. by repeat split. Qed.

(** The contest loop ends in [log.Fatalf] at the first identifier that
    does not parse. *)
Lemma contest_loop_fatal l acc c :
  In c l -> snd (ParseFloat (Rev2.ContestID c)) <> None ->
  exists err, Rev2.contest_loop l acc = Fatal "Couldnt parse contestID to float" err.
Proof.
  revert acc. induction l as [|c0 l IH]; intros acc Hin Herr; [done|].
  simpl. destruct (ParseFloat (Rev2.ContestID c0)) as [f [e|]] eqn:Hp; [by eexists|].
  destruct Hin as [->|Hin]; [by rewrite Hp in Herr|]. by apply IH.
Qed.

(** What the contest loop returns, when it returns. *)
Lemma contest_loop_returns l acc out :
  Rev2.contest_loop l acc = Ret out ->
  exists os, elems out = elems acc ++ os /\ Forall2 contest_fields l os.
Proof.
  revert acc. induction l as [|c l IH]; intros acc; simpl.
  - intros [= <-]. exists []. by rewrite app_nil_r.
  - destruct (ParseFloat (Rev2.ContestID c)) as [f [e|]] eqn:Hp; [done|].
    intros H. destruct (IH _ H) as (os & Hout & Hos).
    exists (Rev2.contestResponseObject c f :: os). split.
    + rewrite Hout. unfold append. simpl. by rewrite <- app_assoc.
    + constructor; [|done]. by repeat split.
Qed.

(** The contest loop returns when every identifier parses. *)
Lemma contest_loop_total l acc :
  (forall c, In c l -> snd (ParseFloat (Rev2.ContestID c)) = None) ->
  exists out, Rev2.contest_loop l acc = Ret out.
Proof.
  revert acc. induction l as [|c l IH]; intros acc Hall; simpl; [by eexists|].
  pose proof (Hall c (or_introl eq_refl)) as Hc.
  destruct (ParseFloat (Rev2.ContestID c)) as [f [e|]]; [done|].
  apply IH. intros c' Hin. apply Hall. by right.
Qed.

(** C6 (as stated, refuted). A contest whose identifier is not a number is
    not answered with an error: [log.Fatalf] ends the process. *)
Lemma non_numeric_contest_id_is_fatal :
  ParseFloat "abc" = (S754_zero false, Some ErrSyntax) /\
  Rev2.formatContestSchemaToGRPCContest (Some [Sample.contest_abc])
  = Fatal "Couldnt parse contestID to float" ErrSyntax /\
  Rev2.CreateGRPCContestResponseFromContestSchema (Some [Sample.weekly300; Sample.contest_abc])
  = Fatal "Couldnt parse contestID to float" ErrSyntax.
Proof. repeat split. Qed.

(** C6 (amended). The formatter parses the string-typed contest
    identifier with [strconv.ParseFloat]: the identifier "12345" yields
    the number 12345.  When [ParseFloat] reports an error for the
    identifier of some contest of the input, the formatter does not
    return: [log.Fatalf] logs "Couldnt parse contestID to float" and ends
    the process.  Whatever the formatter returns holds, for each contest,
    the value [ParseFloat] gave without error: no identifier is replaced
    by zero. *)
Theorem contest_id_is_parsed_or_fatal :
  (forall contest, Rev2.ContestID contest = "12345" ->
     exists o,
       Rev2.formatContestSchemaToGRPCContest (Some [contest]) = Ret (Some [o]) /\
       integer_value (platformDatapb.ContestId o) = Some 12345) /\
  (forall contests contest,
     In contest (elems contests) ->
     snd (ParseFloat (Rev2.ContestID contest)) <> None ->
     exists err, Rev2.formatContestSchemaToGRPCContest contests
                 = Fatal "Couldnt parse contestID to float" err) /\
  (forall contests out,
     Rev2.formatContestSchemaToGRPCContest contests = Ret out ->
     Forall2 (fun contest o =>
                ParseFloat (Rev2.ContestID contest) = (platformDatapb.ContestId o, None))
             (elems contests) (elems out)).
Proof.
  split; [|split].
  - intros contest Hid.
    exists (Rev2.contestResponseObject contest (float64_of_Z 12345)).
    unfold Rev2.formatContestSchemaToGRPCContest. simpl. rewrite Hid. done.
  - intros contests contest Hin Herr. by eapply contest_loop_fatal.
  - intros contests out Hret.
    destruct (contest_loop_returns _ _ _ Hret) as (os & Hout & Hos).
    simpl in Hout. rewrite Hout.
    eapply Forall2_impl; [exact Hos|]. intros c o Hf. apply Hf.
Qed.

Lemma contest_id_is_parsed_or_fatal_witness :
  (exists o,
     Rev2.formatContestSchemaToGRPCContest (Some [Sample.contest_12345]) = Ret (Some [o]) /\
     integer_value (platformDatapb.ContestId o) = Some 12345) /\
  (exists err, Rev2.formatContestSchemaToGRPCContest (Some [Sample.contest_12345; Sample.contest_abc])
               = Fatal "Couldnt parse contestID to float" err).
Proof.
  destruct contest_id_is_parsed_or_fatal as (Hparse & Hfatal & _).
  split.
  - exact (Hparse Sample.contest_12345 eq_refl).
  - refine (Hfatal (Some [Sample.contest_12345; Sample.contest_abc]) Sample.contest_abc _ _).
    + simpl. auto.
    + discriminate.
Defined.

(** C7. The formatter maps field by field, one response record per input
    record, in the order of the input.  For submissions: date from
    [SubmissionDate], language from [SubmissionLanguage], problemStatus
    from [SubmissionStatus], problemTitle from [ProblemName], problemLink
    from [ProblemUrl], codeLink from [CodeUrl].  For contests, when every
    identifier parses, the formatter returns, with contestName, rank,
    rating and contestDate copied and contestId the parsed number.  The
    result depends on the input sequence alone. *)
Theorem formatter_field_mapping :
  (forall submissionDataforDB : slice SubmissionData,
     Forall2 submission_fields (elems submissionDataforDB)
       (elems (Rev2.formatSubmissionSchemaToGRPCSubmission submissionDataforDB))) /\
  (forall contestDataforDB : slice Rev2.ContestData,
     (forall c, In c (elems contestDataforDB) ->
                snd (ParseFloat (Rev2.ContestID c)) = None) ->
     exists out,
       Rev2.formatContestSchemaToGRPCContest contestDataforDB = Ret out /\
       Forall2 contest_fields (elems contestDataforDB) (elems out)).
Proof.
  split.
  - intros ss. unfold Rev2.formatSubmissionSchemaToGRPCSubmission.
    rewrite submission_loop_elems. simpl.
    induction (elems ss) as [|s l IH]; simpl; constructor; [|done].
    apply submission_fields_object.
  - intros cs Hall. unfold Rev2.formatContestSchemaToGRPCContest.
    destruct (contest_loop_total (elems cs) None Hall) as [out Hout].
    exists out. split; [done|].
    destruct (contest_loop_returns _ _ _ Hout) as (os & Hel & Hos).
    simpl in Hel. by rewrite Hel.
Qed.

Lemma formatter_field_mapping_witness :
  Forall2 submission_fields [zero]
    (elems (Rev2.formatSubmissionSchemaToGRPCSubmission (Some [zero]))) /\
  exists out,
    Rev2.formatContestSchemaToGRPCContest (Some [Sample.weekly300; Sample.contest_12345]) = Ret out /\
    Forall2 contest_fields [Sample.weekly300; Sample.contest_12345] (elems out).
Proof.
  destruct formatter_field_mapping as [Hs Hc]. split.
  - exact (Hs (Some [zero])).
  - refine (Hc (Some [Sample.weekly300; Sample.contest_12345]) _).
    simpl. intros c [<-|[<-|[]]]; reflexivity.
Defined.

(** ** Deadlines *)

(** An append is served whatever the time of the call. *)
Lemma AppendContestData_any_time db email platform vs now now' (coll : list Rev2.Document) :
  Rev2.AppendContestData db email platform vs now coll
  = Rev2.AppendContestData db email platform vs now' coll.
Proof. done. Qed.

Lemma AppendSubmissionData_any_time db email platform vs now now' (coll : list Rev2.Document) :
  Rev2.AppendSubmissionData db email platform vs now coll
  = Rev2.AppendSubmissionData db email platform vs now' coll.
Proof. done. Qed.

(** C8 (as stated, refuted). The appends pass [context.TODO()], which has
    no deadline: an hour after the connection was opened the append is
    served as at any other time.  The reads pass the connection's context;
    once its deadline has passed they do not surface an error, the
    process is ended by [log.Fatalf]. *)
Lemma append_has_no_deadline :
  Rev2.OpenDatabaseConnection None None 0 = inr Sample.db /\
  deadline TODO = None /\
  Rev2.AppendContestData Sample.db "a@x.com" "Leetcode" (Some [Sample.weekly300])
    (3600 * Second) [Sample.no_history]
  = (Ret None, [Sample.one_contest]) /\
  Rev2.GetLastContest "a@x.com" "Leetcode" Sample.db (11 * Second) [Sample.no_history]
  = Fatal "Couldnt find user" DeadlineExceeded.
Proof. repeat split. Qed.

(** C8 (amended). [GetLastContest] and [GetLastSubmission] issue their read
    under the connection's context, whose deadline is fixed 10 seconds
    after [OpenDatabaseConnection] created it: before the deadline the
    context allows the call, and from the deadline on the call fails with
    the context's error, upon which [log.Fatalf] ends the process. *)
Theorem read_deadline newClient_err connect_err t0 db :
  Rev2.OpenDatabaseConnection newClient_err connect_err t0 = inr db ->
  deadline (Rev2.ctx db) = Some (t0 + 10 * Second) /\
  (forall now, now < t0 + 10 * Second -> Err (Rev2.ctx db) now = None) /\
  (forall now email platform (coll : list Rev2.Document),
     t0 + 10 * Second <= now ->
     Rev2.GetLastContest email platform db now coll
     = Fatal "Couldnt find user" DeadlineExceeded /\
     Rev2.GetLastSubmission email platform db now coll
     = Fatal "Couldnt find user" DeadlineExceeded).
Proof.
  unfold Rev2.OpenDatabaseConnection.
  destruct newClient_err; [done|]. destruct connect_err; [done|].
  intros [= <-]. simpl. split; [done|]. split.
  - intros now Hnow. rewrite Err_WithTimeout_Background.
    destruct (Z.leb_spec (t0 + 10 * Second) now); [lia | done].
  - intros now email platform coll Hnow.
    unfold Rev2.GetLastContest, Rev2.GetLastSubmission, FindOne. simpl.
    rewrite Err_WithTimeout_Background.
    destruct (Z.leb_spec (t0 + 10 * Second) now); [done | lia].
Qed.

Lemma read_deadline_witness :
  Rev2.OpenDatabaseConnection None None 0 = inr Sample.db /\
  deadline (Rev2.ctx Sample.db) = Some (10 * Second) /\
  Rev2.GetLastContest "a@x.com" "Leetcode" Sample.db (10 * Second) [Sample.no_history]
  = Fatal "Couldnt find user" DeadlineExceeded.
Proof.
  assert (H : Rev2.OpenDatabaseConnection None None 0 = inr Sample.db) by reflexivity.
  destruct (read_deadline None None 0 Sample.db H) as (Hd & _ & Hlate).
  refine (conj H (conj Hd (proj1 (Hlate (10 * Second) "a@x.com" "Leetcode"
                                    [Sample.no_history] _)))).
  reflexivity.
Defined.

(** ** The older revision *)

(** What the older last-element functions index: the log the projection
    returned, when the decoder puts it into the [Leetcode] field. *)
Lemma older_Leetcode_field platform f (d : Rev1.Document) :
  Leetcode (PlatformData (decode (project platform f d)))
  = if decide (ToLower platform = "leetcode") then only f (sub_document platform d)
    else zero.
Proof.
  unfold decode. cbn [PlatformData Leetcode]. by rewrite decode_platform_project.
Qed.

Lemma older_GetLastContest_found email platform db now (coll : list Rev1.Document) d :
  Err (Rev1.ctx db) now = None ->
  find_first email coll = Some d ->
  Rev1.GetLastContest email platform db now coll
  = if decide (ToLower platform = "leetcode")
    then index (contest_log platform d) (len (contest_log platform d) - 1)
    else Panic "index out of range".
Proof.
  intros Hctx Hfind. unfold Rev1.GetLastContest, FindOne.
  rewrite Hctx, Hfind. unfold Marshal, Unmarshal. cbn [orFatal mbind Outcome_bind].
  rewrite older_Leetcode_field. by case_decide.
Qed.

Lemma older_GetLastSubmission_found email platform db now (coll : list Rev1.Document) d :
  Err (Rev1.ctx db) now = None ->
  find_first email coll = Some d ->
  Rev1.GetLastSubmission email platform db now coll
  = if decide (ToLower platform = "leetcode")
    then index (submission_log platform d) (len (submission_log platform d) - 1)
    else Panic "index out of range".
Proof.
  intros Hctx Hfind. unfold Rev1.GetLastSubmission, FindOne.
  rewrite Hctx, Hfind. unfold Marshal, Unmarshal. cbn [orFatal mbind Outcome_bind].
  rewrite older_Leetcode_field. by case_decide.
Qed.

(** C9 (as stated, refuted). In the older revision a request for another
    platform does not return the last Leetcode contest, nor anything else:
    the projection left the [Leetcode] field empty, and indexing it
    panics. *)
Lemma older_GetLast_of_another_platform_panics :
  contest_log "leetcode" Sample.old_user = Some [Sample.old_weekly] /\
  contest_log "codeforces" Sample.old_user = Some [Sample.old_round] /\
  Rev1.GetLastContest "a@x.com" "leetcode" Sample.old_db 5 [Sample.old_user]
  = Ret Sample.old_weekly /\
  Rev1.GetLastContest "a@x.com" "codeforces" Sample.old_db 5 [Sample.old_user]
  = Panic "index out of range" /\
  Rev1.GetLastSubmission "a@x.com" "codeforces" Sample.old_db 5 [Sample.old_user]
  = Panic "index out of range".
Proof. repeat split. Qed.

(** C9 (amended). In the older revision [GetLastContest] and
    [GetLastSubmission] use the platform argument, as it is given, for the
    projection path only, and index the [Leetcode] field of the decoded
    document.  For a user that has a document, before the deadline of the
    connection's context: when the argument is a casing of "leetcode" the
    functions return the last entry of the log stored under that very
    key, and panic when that log is empty or absent; for any other
    argument that is one path segment the projected document holds no
    Leetcode log and the functions panic on the index.  They never return
    an entry of a log other than the one requested. *)
Theorem older_GetLast_reads_the_projected_log email platform db now
    (coll : list Rev1.Document) d :
  Err (Rev1.ctx db) now = None ->
  find_first email coll = Some d ->
  (ToLower platform = "leetcode" ->
     (forall l c, elems (contest_log platform d) = l ++ [c] ->
        Rev1.GetLastContest email platform db now coll = Ret c) /\
     (elems (contest_log platform d) = [] ->
        Rev1.GetLastContest email platform db now coll = Panic "index out of range") /\
     (forall l s, elems (submission_log platform d) = l ++ [s] ->
        Rev1.GetLastSubmission email platform db now coll = Ret s) /\
     (elems (submission_log platform d) = [] ->
        Rev1.GetLastSubmission email platform db now coll = Panic "index out of range")) /\
  (ToLower platform <> "leetcode" -> field_name platform = true ->
     Rev1.GetLastContest email platform db now coll = Panic "index out of range" /\
     Rev1.GetLastSubmission email platform db now coll = Panic "index out of range").
Proof.
  intros Hctx Hfind.
  rewrite (older_GetLastContest_found _ _ _ _ _ _ Hctx Hfind).
  rewrite (older_GetLastSubmission_found _ _ _ _ _ _ Hctx Hfind).
  split.
  - intros Hl. rewrite !decide_True by done. repeat split.
    + intros l c Hlog. by eapply index_last.
    + apply index_empty.
    + intros l s Hlog. by eapply index_last.
    + apply index_empty.
  - intros Hl _. by rewrite !decide_False.
Qed.

Lemma older_GetLast_reads_the_projected_log_witness :
  Err (Rev1.ctx Sample.old_db) 5 = None /\
  find_first "a@x.com" [Sample.old_user] = Some Sample.old_user /\
  Rev1.GetLastContest "a@x.com" "leetcode" Sample.old_db 5 [Sample.old_user]
  = Ret Sample.old_weekly /\
  Rev1.GetLastContest "a@x.com" "Codeforces" Sample.old_db 5 [Sample.old_user]
  = Panic "index out of range".
Proof.
  assert (H1 : Err (Rev1.ctx Sample.old_db) 5 = None) by reflexivity.
  assert (H2 : find_first "a@x.com" [Sample.old_user] = Some Sample.old_user)
    by reflexivity.
  destruct (older_GetLast_reads_the_projected_log "a@x.com" "leetcode" Sample.old_db 5
              [Sample.old_user] Sample.old_user H1 H2) as [Hleet _].
  destruct (Hleet eq_refl) as (Hlast & _).
  destruct (older_GetLast_reads_the_projected_log "a@x.com" "Codeforces" Sample.old_db 5
              [Sample.old_user] Sample.old_user H1 H2) as [_ Hother].
  refine (conj H1 (conj H2 (conj (Hlast [] Sample.old_weekly _) (proj1 (Hother _ _))))).
  - reflexivity.
  - discriminate.
  - reflexivity.
Defined.

(** ** The frame of an append *)

Lemma update_first_lookup_other e (f : Rev2.Document -> Rev2.Document) coll i d :
  coll !! i = Some d -> email d <> e -> update_first e f coll !! i = Some d.
Proof.
  revert i. induction coll as [|d0 coll IH]; intros i; [done|].
  simpl. destruct (matches e d0) eqn:Hm.
  - destruct i as [|i]; simpl; [|done].
    intros [= ->] Hne. unfold matches in Hm. by apply bool_decide_eq_true in Hm.
  - destruct i as [|i]; simpl; [done | apply IH].
Qed.

(** C10 (as stated, refuted). The empty sequence a Go caller has at hand
    is the nil slice; the driver encodes it as null, the server rejects
    the update, and the append does not return success: [log.Fatalf] ends
    the process.  The collection is as it was. *)
Lemma append_of_nil_slice_is_fatal :
  len (None : slice Rev2.ContestData) = 0 /\
  Rev2.AppendContestData Sample.db "a@x.com" "Leetcode" None 5 [Sample.one_contest]
  = (Fatal "Couldnt update user"
       (ServerError "The argument to $each in $push must be an array but it was of type null"),
     [Sample.one_contest]) /\
  Rev2.AppendSubmissionData Sample.db "a@x.com" "Leetcode" None 5 [Sample.one_contest]
  = (Fatal "Couldnt update user"
       (ServerError "The argument to $each in $push must be an array but it was of type null"),
     [Sample.one_contest]).
Proof. repeat split. Qed.

(** C10 (amended). For every email and every platform name whose lower
    case is one path segment, [AppendContestData] and
    [AppendSubmissionData] with a sequence that is not nil return success.
    Every document of the collection is afterwards as it was, but for the
    first one with that email, and that one only in the targeted log: its
    profile fields, the sub-documents of the other platform keys, and the
    handle, totalSolved, ranking and the other log under the targeted key
    are unchanged, and the targeted log is the former one followed by the
    sequence.  With an empty sequence that is not nil the entries of
    every log are therefore as before, and the collection itself is
    unchanged when no document has the email or the targeted array is
    there already. *)
Theorem append_changes_only_its_log db email platform now (coll : list Rev2.Document) :
  field_name (ToLower platform) = true ->
  (forall vs, exists coll',
     Rev2.AppendContestData db email platform (Some vs) now coll = (Ret None, coll') /\
     length coll' = length coll /\
     (forall i d, coll !! i = Some d ->
        (Mongo.email d <> email -> coll' !! i = Some d) /\
        (coll' !! i = Some d \/
         exists d', coll' !! i = Some d' /\ contests_extended (ToLower platform) vs d d')) /\
     (vs = [] -> find_first email coll = None -> coll' = coll) /\
     (vs = [] -> forall d l, find_first email coll = Some d ->
        Contests <$> platformData d !! ToLower platform = Some (Some l) -> coll' = coll)) /\
  (forall vs, exists coll',
     Rev2.AppendSubmissionData db email platform (Some vs) now coll = (Ret None, coll') /\
     length coll' = length coll /\
     (forall i d, coll !! i = Some d ->
        (Mongo.email d <> email -> coll' !! i = Some d) /\
        (coll' !! i = Some d \/
         exists d', coll' !! i = Some d' /\ submissions_extended (ToLower platform) vs d d')) /\
     (vs = [] -> find_first email coll = None -> coll' = coll) /\
     (vs = [] -> forall d l, find_first email coll = Some d ->
        Submissions <$> platformData d !! ToLower platform = Some (Some l) -> coll' = coll)).
Proof.
  intros _. split; intros vs; eexists; (split; [reflexivity|]).
  - split; [apply update_first_length|]. split; [|split].
    + intros i d Hi. split.
      * by apply update_first_lookup_other.
      * destruct (update_first_lookup email (pushed_contests (ToLower platform) vs) coll i d Hi)
          as [H|H]; [by left | right].
        eexists. split; [exact H | apply pushed_contests_extended].
    + intros _ Hnone. by apply update_first_unmatched.
    + intros -> d l Hfind Hl. eapply update_first_fixed; [exact Hfind|].
      by eapply pushed_contests_nil.
  - split; [apply update_first_length|]. split; [|split].
    + intros i d Hi. split.
      * by apply update_first_lookup_other.
      * destruct (update_first_lookup email (pushed_submissions (ToLower platform) vs) coll i d Hi)
          as [H|H]; [by left | right].
        eexists. split; [exact H | apply pushed_submissions_extended].
    + intros _ Hnone. by apply update_first_unmatched.
    + intros -> d l Hfind Hl. eapply update_first_fixed; [exact Hfind|].
      by eapply pushed_submissions_nil.
Qed.

Lemma append_changes_only_its_log_witness :
  field_name (ToLower "Leetcode") = true /\
  exists coll',
    Rev2.AppendContestData Sample.db "a@x.com" "Leetcode" (Some []) 5 [Sample.one_contest]
    = (Ret None, coll') /\
    coll' = [Sample.one_contest].
Proof.
  assert (H : field_name (ToLower "Leetcode") = true) by reflexivity.
  destruct (append_changes_only_its_log Sample.db "a@x.com" "Leetcode" 5
              [Sample.one_contest] H) as [Hc _].
  destruct (Hc []) as (coll' & Happ & _ & _ & _ & Hsame).
  refine (conj H _). exists coll'. refine (conj Happ _).
  exact (Hsame eq_refl Sample.one_contest [Sample.weekly300] eq_refl eq_refl).
Defined.

(** ** Further properties *)

(** The scenario of the specification: the user "a@x.com" has no
    contest on Leetcode; after [AppendContestData] with the one entry
    "Weekly 300" (rank 1500, rating 1600, solved 3, contestId "300"),
    [GetLastContest] returns exactly that entry. *)
Example scenario_weekly300 :
  contest_log "leetcode" Sample.no_history = Some [] /\
  Rev2.AppendContestData Sample.db "a@x.com" "Leetcode" (Some [Sample.weekly300])
    1 [Sample.no_history]
  = (Ret None, [Sample.one_contest]) /\
  Rev2.GetLastContest "a@x.com" "Leetcode" Sample.db 2 [Sample.one_contest]
  = Ret Sample.weekly300.
Proof. repeat split. Qed.

(** X1. Appends keep the order in which they are made: two appends of any
    two sequences to the contest log of an existing user both succeed and
    leave that log as the former one followed by the first sequence and
    then the second, with nothing else in the document changed.  The
    lower-cased platform name is a path segment. *)
Theorem appends_keep_order db email platform xs ys t1 t2 (coll : list Rev2.Document) d :
  field_name (ToLower platform) = true ->
  find_first email coll = Some d ->
  exists coll1 coll2 d2,
    Rev2.AppendContestData db email platform (Some xs) t1 coll = (Ret None, coll1) /\
    Rev2.AppendContestData db email platform (Some ys) t2 coll1 = (Ret None, coll2) /\
    find_first email coll2 = Some d2 /\
    contests_extended (ToLower platform) (xs ++ ys) d d2.
Proof.
  intros _ Hfind.
  destruct (AppendContestData_twice db email platform xs ys t1 t2 coll d Hfind)
    as (coll1 & coll2 & H1 & H2 & Hfind2).
  exists coll1, coll2, (pushed_contests (ToLower platform) (xs ++ ys) d).
  repeat (split; [done|]). apply pushed_contests_extended.
Qed.

Lemma appends_keep_order_witness :
  field_name (ToLower "Leetcode") = true /\
  find_first "a@x.com" [Sample.no_history] = Some Sample.no_history /\
  exists coll1 coll2 d2,
    Rev2.AppendContestData Sample.db "a@x.com" "Leetcode" (Some [Sample.contest_12345])
      1 [Sample.no_history] = (Ret None, coll1) /\
    Rev2.AppendContestData Sample.db "a@x.com" "Leetcode" (Some [Sample.weekly300])
      2 coll1 = (Ret None, coll2) /\
    find_first "a@x.com" coll2 = Some d2 /\
    contests_extended "leetcode" [Sample.contest_12345; Sample.weekly300]
      Sample.no_history d2.
Proof.
  assert (H : find_first "a@x.com" [Sample.no_history] = Some Sample.no_history)
    by reflexivity.
  assert (Hkey : field_name (ToLower "Leetcode") = true) by reflexivity.
  exact (conj Hkey (conj H (appends_keep_order Sample.db "a@x.com" "Leetcode"
                              [Sample.contest_12345] [Sample.weekly300] 1 2
                              [Sample.no_history] Sample.no_history Hkey H))).
Defined.

(** * Further properties of the code *)

(** ** What the last-element reads depend on *)

(** The document a projection returns decodes to the same struct whenever
    the projected log is the same. *)
Lemma decode_project_contests key (d d' : Rev2.Document) :
  contest_log key d = contest_log key d' ->
  decode (project key contests d) = decode (project key contests d').
Proof.
  intros H. unfold decode. rewrite !decode_platform_project.
  unfold only, contest_log in *. by rewrite H.
Qed.

Lemma decode_project_submissions key (d d' : Rev2.Document) :
  submission_log key d = submission_log key d' ->
  decode (project key submissions d) = decode (project key submissions d').
Proof.
  intros H. unfold decode. rewrite !decode_platform_project.
  unfold only, submission_log in *. by rewrite H.
Qed.

(** [GetLastContest] is settled by the contest log of the first document
    with the email, under the lower-cased name; [GetLastSubmission] by the
    submission log. *)
Lemma GetLastContest_same_log email platform db now (coll coll' : list Rev2.Document) :
  contest_log (ToLower platform) <$> find_first email coll
  = contest_log (ToLower platform) <$> find_first email coll' ->
  Rev2.GetLastContest email platform db now coll
  = Rev2.GetLastContest email platform db now coll'.
Proof.
  intros H. unfold Rev2.GetLastContest, FindOne.
  destruct (Err (Rev2.ctx db) now); [done|].
  destruct (find_first email coll) as [d|], (find_first email coll') as [d'|];
    simpl in H; try done.
  injection H as H. unfold Marshal, Unmarshal. cbn [orFatal mbind Outcome_bind].
  by rewrite (decode_project_contests _ d d').
Qed.

Lemma GetLastSubmission_same_log email platform db now (coll coll' : list Rev2.Document) :
  submission_log (ToLower platform) <$> find_first email coll
  = submission_log (ToLower platform) <$> find_first email coll' ->
  Rev2.GetLastSubmission email platform db now coll
  = Rev2.GetLastSubmission email platform db now coll'.
Proof.
  intros H. unfold Rev2.GetLastSubmission, FindOne.
  destruct (Err (Rev2.ctx db) now); [done|].
  destruct (find_first email coll) as [d|], (find_first email coll') as [d'|];
    simpl in H; try done.
  injection H as H. unfold Marshal, Unmarshal. cbn [orFatal mbind Outcome_bind].
  by rewrite (decode_project_submissions _ d d').
Qed.

Lemma find_first_after_update e e' (f : Rev2.Document -> Rev2.Document) coll :
  (forall d, email (f d) = email d) ->
  find_first e (update_first e' f coll)
  = if decide (e' = e) then f <$> find_first e coll else find_first e coll.
Proof.
  intros Hf. case_decide as He.
  - subst. by apply find_first_update_first.
  - apply find_first_update_first_ne; [done | congruence].
Qed.

Lemma contest_log_pushed_submissions key key' vs (d : Rev2.Document) :
  contest_log key (pushed_submissions key' vs d) = contest_log key d.
Proof.
  unfold contest_log, pushed_submissions. rewrite sub_document_set.
  case_decide; by subst.
Qed.

Lemma submission_log_pushed_contests key key' vs (d : Rev2.Document) :
  submission_log key (pushed_contests key' vs d) = submission_log key d.
Proof.
  unfold submission_log, pushed_contests. rewrite sub_document_set.
  case_decide; by subst.
Qed.

Lemma contest_log_pushed_contests_ne key key' vs (d : Rev2.Document) :
  key' <> key -> contest_log key (pushed_contests key' vs d) = contest_log key d.
Proof.
  intros Hne. unfold contest_log, pushed_contests. by rewrite sub_document_set, decide_False.
Qed.

Lemma submission_log_pushed_submissions_ne key key' vs (d : Rev2.Document) :
  key' <> key -> submission_log key (pushed_submissions key' vs d) = submission_log key d.
Proof.
  intros Hne. unfold submission_log, pushed_submissions.
  by rewrite sub_document_set, decide_False.
Qed.

(** The collection an append leaves, whatever the slice it was given. *)
Lemma AppendContestData_snd db email platform vs now (coll : list Rev2.Document) :
  snd (Rev2.AppendContestData db email platform vs now coll)
  = match vs with
    | Some l => update_first email (pushed_contests (ToLower platform) l) coll
    | None => coll
    end.
Proof. by destruct vs. Qed.

Lemma AppendSubmissionData_snd db email platform vs now (coll : list Rev2.Document) :
  snd (Rev2.AppendSubmissionData db email platform vs now coll)
  = match vs with
    | Some l => update_first email (pushed_submissions (ToLower platform) l) coll
    | None => coll
    end.
Proof. by destruct vs. Qed.

Lemma GetLastContest_last email platform db now (coll : list Rev2.Document) d l c :
  Err (Rev2.ctx db) now = None ->
  find_first email coll = Some d ->
  In platform platform_names ->
  elems (contest_log (ToLower platform) d) = l ++ [c] ->
  Rev2.GetLastContest email platform db now coll = Ret c.
Proof.
  intros Hctx Hfind Hname Hlog.
  rewrite (GetLastContest_found _ _ _ _ _ _ Hctx Hfind Hname), (index_last _ _ _ Hlog).
  destruct (len _ =? 0) eqn:Hlen; [|done].
  apply len_zero in Hlen. rewrite Hlog in Hlen. by destruct l.
Qed.

Lemma GetLastSubmission_last email platform db now (coll : list Rev2.Document) d l s :
  Err (Rev2.ctx db) now = None ->
  find_first email coll = Some d ->
  In platform platform_names ->
  elems (submission_log (ToLower platform) d) = l ++ [s] ->
  Rev2.GetLastSubmission email platform db now coll = Ret s.
Proof.
  intros Hctx Hfind Hname Hlog.
  rewrite (GetLastSubmission_found _ _ _ _ _ _ Hctx Hfind Hname), (index_last _ _ _ Hlog).
  destruct (len _ =? 0) eqn:Hlen; [|done].
  apply len_zero in Hlen. rewrite Hlog in Hlen. by destruct l.
Qed.

(** X2. For a user that has a document and a platform named as a field of
    [Platforms], before the deadline of the connection's context:
    [GetLastContest] returns the last entry of the stored contest log and
    [GetLastSubmission] the last entry of the stored submission log,
    whenever the log has an entry. *)
Theorem GetLast_returns_the_last_entry email platform db now (coll : list Rev2.Document) d :
  Err (Rev2.ctx db) now = None ->
  find_first email coll = Some d ->
  In platform platform_names ->
  (forall l c, elems (contest_log (ToLower platform) d) = l ++ [c] ->
     Rev2.GetLastContest email platform db now coll = Ret c) /\
  (forall l s, elems (submission_log (ToLower platform) d) = l ++ [s] ->
     Rev2.GetLastSubmission email platform db now coll = Ret s).
Proof.
  intros Hctx Hfind Hname. split.
  - intros l c Hlog. by eapply GetLastContest_last.
  - intros l s Hlog. by eapply GetLastSubmission_last.
Qed.

Lemma GetLast_returns_the_last_entry_witness :
  Err (Rev2.ctx Sample.db) 5 = None /\
  find_first "a@x.com" [Sample.one_contest] = Some Sample.one_contest /\
  In "Leetcode" platform_names /\
  Rev2.GetLastContest "a@x.com" "Leetcode" Sample.db 5 [Sample.one_contest]
  = Ret Sample.weekly300.
Proof.
  assert (H1 : Err (Rev2.ctx Sample.db) 5 = None) by reflexivity.
  assert (H2 : find_first "a@x.com" [Sample.one_contest] = Some Sample.one_contest)
    by reflexivity.
  assert (H3 : In "Leetcode" platform_names) by (simpl; auto).
  destruct (GetLast_returns_the_last_entry "a@x.com" "Leetcode" Sample.db 5
              [Sample.one_contest] Sample.one_contest H1 H2 H3) as [Hc _].
  exact (conj H1 (conj H2 (conj H3 (Hc [] Sample.weekly300 eq_refl)))).
Defined.

(** X3. An append is seen by the next read: for a user that has a document
    and a platform named as a field of [Platforms], before the deadline of
    the connection's context, [GetLastContest] after [AppendContestData]
    with a sequence that has an entry returns the last entry of that
    sequence, and [GetLastSubmission] after [AppendSubmissionData]
    likewise, whatever the logs held before. *)
Theorem GetLast_after_append email platform db now (coll : list Rev2.Document) d :
  Err (Rev2.ctx db) now = None ->
  find_first email coll = Some d ->
  In platform platform_names ->
  (forall l c t,
     Rev2.GetLastContest email platform db now
       (snd (Rev2.AppendContestData db email platform (Some (l ++ [c])) t coll)) = Ret c) /\
  (forall l s t,
     Rev2.GetLastSubmission email platform db now
       (snd (Rev2.AppendSubmissionData db email platform (Some (l ++ [s])) t coll)) = Ret s).
Proof.
  intros Hctx Hfind Hname. split.
  - intros l c t. rewrite AppendContestData_snd.
    eapply GetLastContest_last; [done| |done|].
    + rewrite find_first_update_first by done. by rewrite Hfind.
    + rewrite contest_log_pushed. simpl. by rewrite app_assoc.
  - intros l s t. rewrite AppendSubmissionData_snd.
    eapply GetLastSubmission_last; [done| |done|].
    + rewrite find_first_update_first by done. by rewrite Hfind.
    + rewrite submission_log_pushed. simpl. by rewrite app_assoc.
Qed.

Lemma GetLast_after_append_witness :
  Err (Rev2.ctx Sample.db) 5 = None /\
  find_first "a@x.com" [Sample.one_contest] = Some Sample.one_contest /\
  In "Leetcode" platform_names /\
  Rev2.GetLastSubmission "a@x.com" "Leetcode" Sample.db 5
    (snd (Rev2.AppendSubmissionData Sample.db "a@x.com" "Leetcode"
            (Some ([zero] ++ [Sample.two_sum])) 1 [Sample.one_contest]))
  = Ret Sample.two_sum.
Proof.
  assert (H1 : Err (Rev2.ctx Sample.db) 5 = None) by reflexivity.
  assert (H2 : find_first "a@x.com" [Sample.one_contest] = Some Sample.one_contest)
    by reflexivity.
  assert (H3 : In "Leetcode" platform_names) by (simpl; auto).
  destruct (GetLast_after_append "a@x.com" "Leetcode" Sample.db 5
              [Sample.one_contest] Sample.one_contest H1 H2 H3) as [_ Hs].
  exact (conj H1 (conj H2 (conj H3 (Hs [zero] Sample.two_sum 1)))).
Defined.

(** X4. The reads through a projection agree with the read of the whole
    document: for a user that has a document with lower-case keys and a
    platform named as a field of [Platforms], before the deadline of the
    connection's context, [FindContestsandSubmissionsFromDB] returns two
    slices, [GetLastContest] returns the last element of the first (the
    zero value when it is empty) and [GetLastSubmission] the last element
    of the second. *)
Theorem GetLast_agrees_with_full_history email platform db now (coll : list Rev2.Document) d :
  Err (Rev2.ctx db) now = None ->
  find_first email coll = Some d ->
  lower_case_keys d ->
  In platform platform_names ->
  exists cs ss,
    Rev2.FindContestsandSubmissionsFromDB db email platform now coll = Ret (cs, ss) /\
    Rev2.GetLastContest email platform db now coll
    = (if len cs =? 0 then Ret Rev2.Zero_ContestData else index cs (len cs - 1)) /\
    Rev2.GetLastSubmission email platform db now coll
    = (if len ss =? 0 then Ret Zero_SubmissionData else index ss (len ss - 1)).
Proof.
  intros Hctx Hfind Hkeys Hname.
  exists (contest_log (ToLower platform) d), (submission_log (ToLower platform) d).
  split; [by apply FindContestsandSubmissionsFromDB_found|].
  split; [by apply GetLastContest_found | by apply GetLastSubmission_found].
Qed.

Lemma one_contest_lower_case_keys : lower_case_keys Sample.one_contest.
Proof.
  intros key [p Hp]. unfold Sample.one_contest, Sample.user in Hp. simpl in Hp.
  apply lookup_singleton_Some in Hp as [<- _]. reflexivity.
Qed.

Lemma GetLast_agrees_with_full_history_witness :
  Err (Rev2.ctx Sample.db) 5 = None /\
  find_first "a@x.com" [Sample.one_contest] = Some Sample.one_contest /\
  lower_case_keys Sample.one_contest /\
  In "Leetcode" platform_names /\
  exists cs ss,
    Rev2.FindContestsandSubmissionsFromDB Sample.db "a@x.com" "Leetcode" 5
      [Sample.one_contest] = Ret (cs, ss) /\
    Rev2.GetLastContest "a@x.com" "Leetcode" Sample.db 5 [Sample.one_contest]
    = (if len cs =? 0 then Ret Rev2.Zero_ContestData else index cs (len cs - 1)) /\
    Rev2.GetLastSubmission "a@x.com" "Leetcode" Sample.db 5 [Sample.one_contest]
    = (if len ss =? 0 then Ret Zero_SubmissionData else index ss (len ss - 1)).
Proof.
  assert (H1 : Err (Rev2.ctx Sample.db) 5 = None) by reflexivity.
  assert (H2 : find_first "a@x.com" [Sample.one_contest] = Some Sample.one_contest)
    by reflexivity.
  assert (H3 : In "Leetcode" platform_names) by (simpl; auto).
  exact (conj H1 (conj H2 (conj one_contest_lower_case_keys (conj H3
           (GetLast_agrees_with_full_history "a@x.com" "Leetcode" Sample.db 5
              [Sample.one_contest] Sample.one_contest H1 H2
              one_contest_lower_case_keys H3))))).
Defined.

(** X5. A last-element read sees only its own log: an append to the
    submission log never changes what [GetLastContest] gives, an append to
    the contest log never changes what [GetLastSubmission] gives, and an
    append for another email or under another key changes neither,
    whatever the slice, the time of the calls and the content of the
    collection.  The lower-cased platform name of the append is a path
    segment. *)
Theorem GetLast_unaffected_by_other_appends email platform db now
    email' platform' db' t (coll : list Rev2.Document) :
  field_name (ToLower platform') = true ->
  (forall vs,
     Rev2.GetLastContest email platform db now
       (snd (Rev2.AppendSubmissionData db' email' platform' vs t coll))
     = Rev2.GetLastContest email platform db now coll) /\
  (forall vs,
     Rev2.GetLastSubmission email platform db now
       (snd (Rev2.AppendContestData db' email' platform' vs t coll))
     = Rev2.GetLastSubmission email platform db now coll) /\
  (email' <> email \/ ToLower platform' <> ToLower platform ->
   (forall vs,
      Rev2.GetLastContest email platform db now
        (snd (Rev2.AppendContestData db' email' platform' vs t coll))
      = Rev2.GetLastContest email platform db now coll) /\
   (forall vs,
      Rev2.GetLastSubmission email platform db now
        (snd (Rev2.AppendSubmissionData db' email' platform' vs t coll))
      = Rev2.GetLastSubmission email platform db now coll)).
Proof.
  intros _. split; [|split].
  - intros vs. rewrite AppendSubmissionData_snd. destruct vs as [l|]; [|done].
    apply GetLastContest_same_log. rewrite find_first_after_update by done.
    case_decide; [|done]. destruct (find_first email coll); [|done]. simpl.
    by rewrite contest_log_pushed_submissions.
  - intros vs. rewrite AppendContestData_snd. destruct vs as [l|]; [|done].
    apply GetLastSubmission_same_log. rewrite find_first_after_update by done.
    case_decide; [|done]. destruct (find_first email coll); [|done]. simpl.
    by rewrite submission_log_pushed_contests.
  - intros Hother. split; intros vs.
    + rewrite AppendContestData_snd. destruct vs as [l|]; [|done].
      apply GetLastContest_same_log. rewrite find_first_after_update by done.
      case_decide as He; [|done]. destruct Hother as [Hne|Hne]; [done|].
      destruct (find_first email coll); [|done]. simpl.
      by rewrite contest_log_pushed_contests_ne.
    + rewrite AppendSubmissionData_snd. destruct vs as [l|]; [|done].
      apply GetLastSubmission_same_log. rewrite find_first_after_update by done.
      case_decide as He; [|done]. destruct Hother as [Hne|Hne]; [done|].
      destruct (find_first email coll); [|done]. simpl.
      by rewrite submission_log_pushed_submissions_ne.
Qed.

Lemma GetLast_unaffected_by_other_appends_witness :
  field_name (ToLower "Codeforces") = true /\
  Rev2.GetLastContest "a@x.com" "Leetcode" Sample.db 5
    (snd (Rev2.AppendContestData Sample.db "a@x.com" "Codeforces"
            (Some [Sample.contest_12345]) 1 [Sample.one_contest]))
  = Rev2.GetLastContest "a@x.com" "Leetcode" Sample.db 5 [Sample.one_contest].
Proof.
  assert (H : field_name (ToLower "Codeforces") = true) by reflexivity.
  destruct (GetLast_unaffected_by_other_appends "a@x.com" "Leetcode" Sample.db 5
              "a@x.com" "Codeforces" Sample.db 1 [Sample.one_contest] H)
    as (_ & _ & Hother).
  refine (conj H (proj1 (Hother _) (Some [Sample.contest_12345]))).
  right. discriminate.
Defined.

(** ** How appends compose, and what they keep *)

Lemma update_first_commute e1 e2 (f g : Rev2.Document -> Rev2.Document) coll :
  (forall d, email (f d) = email d) ->
  (forall d, email (g d) = email d) ->
  (e1 = e2 -> forall d, f (g d) = g (f d)) ->
  update_first e1 f (update_first e2 g coll) = update_first e2 g (update_first e1 f coll).
Proof.
  intros Hf Hg Hfg. induction coll as [|d0 coll IH]; simpl; [done|].
  destruct (matches e1 d0) eqn:H1, (matches e2 d0) eqn:H2; simpl.
  - unfold matches in *. rewrite Hf, Hg, H1, H2.
    apply bool_decide_eq_true in H1, H2. rewrite Hfg by congruence. done.
  - unfold matches in *. by rewrite Hf, H1, H2.
  - unfold matches in *. by rewrite Hg, H1, H2.
  - by rewrite H1, H2, IH.
Qed.

Lemma set_sub_document_twice key p p' (d : Rev2.Document) :
  set_sub_document key p' (set_sub_document key p d) = set_sub_document key p' d.
Proof. unfold set_sub_document. simpl. by rewrite insert_insert_eq. Qed.

Lemma set_sub_document_commute key key' p p' (d : Rev2.Document) :
  key <> key' ->
  set_sub_document key p (set_sub_document key' p' d)
  = set_sub_document key' p' (set_sub_document key p d).
Proof.
  intros Hne. unfold set_sub_document. simpl. f_equal. by apply insert_insert_ne.
Qed.

Lemma pushed_contests_submissions_commute key key' xs ys (d : Rev2.Document) :
  pushed_contests key xs (pushed_submissions key' ys d)
  = pushed_submissions key' ys (pushed_contests key xs d).
Proof.
  unfold pushed_contests, pushed_submissions. rewrite !sub_document_set.
  destruct (decide (key' = key)) as [->|Hne].
  - rewrite decide_True by done. by rewrite !set_sub_document_twice.
  - rewrite decide_False by congruence. by apply set_sub_document_commute.
Qed.

Lemma pushed_contests_commute key key' xs ys (d : Rev2.Document) :
  key <> key' ->
  pushed_contests key xs (pushed_contests key' ys d)
  = pushed_contests key' ys (pushed_contests key xs d).
Proof.
  intros Hne. unfold pushed_contests. rewrite !sub_document_set.
  rewrite !decide_False by congruence. by apply set_sub_document_commute.
Qed.

Lemma pushed_submissions_commute key key' xs ys (d : Rev2.Document) :
  key <> key' ->
  pushed_submissions key xs (pushed_submissions key' ys d)
  = pushed_submissions key' ys (pushed_submissions key xs d).
Proof.
  intros Hne. unfold pushed_submissions. rewrite !sub_document_set.
  rewrite !decide_False by congruence. by apply set_sub_document_commute.
Qed.

(** X6. Appends to different logs can be made in either order: an append
    of contests and an append of submissions, for any two emails and any
    two platforms, leave the same collection whichever comes first; so do
    two appends of contests, and two appends of submissions, when they
    are for different emails or under different keys.  The sequences are
    not nil and the lower-cased platform names are path segments. *)
Theorem appends_to_different_logs_commute db email1 platform1 email2 platform2
    t1 t2 t3 t4 (coll : list Rev2.Document) :
  field_name (ToLower platform1) = true ->
  field_name (ToLower platform2) = true ->
  (forall xs ys,
     snd (Rev2.AppendSubmissionData db email2 platform2 (Some ys) t2
            (snd (Rev2.AppendContestData db email1 platform1 (Some xs) t1 coll)))
     = snd (Rev2.AppendContestData db email1 platform1 (Some xs) t4
              (snd (Rev2.AppendSubmissionData db email2 platform2 (Some ys) t3 coll)))) /\
  (email1 <> email2 \/ ToLower platform1 <> ToLower platform2 ->
   (forall xs ys,
      snd (Rev2.AppendContestData db email2 platform2 (Some ys) t2
             (snd (Rev2.AppendContestData db email1 platform1 (Some xs) t1 coll)))
      = snd (Rev2.AppendContestData db email1 platform1 (Some xs) t4
               (snd (Rev2.AppendContestData db email2 platform2 (Some ys) t3 coll)))) /\
   (forall xs ys,
      snd (Rev2.AppendSubmissionData db email2 platform2 (Some ys) t2
             (snd (Rev2.AppendSubmissionData db email1 platform1 (Some xs) t1 coll)))
      = snd (Rev2.AppendSubmissionData db email1 platform1 (Some xs) t4
               (snd (Rev2.AppendSubmissionData db email2 platform2 (Some ys) t3 coll))))).
Proof.
  intros _ _. split.
  - intros xs ys. rewrite !AppendSubmissionData_snd, !AppendContestData_snd.
    apply update_first_commute; [done | done |].
    intros _ d. symmetry. apply pushed_contests_submissions_commute.
  - intros Hother. split; intros xs ys.
    + rewrite !AppendContestData_snd.
      apply update_first_commute; [done | done |].
      intros He d. destruct Hother as [Hne|Hne]; [congruence|].
      apply pushed_contests_commute. congruence.
    + rewrite !AppendSubmissionData_snd.
      apply update_first_commute; [done | done |].
      intros He d. destruct Hother as [Hne|Hne]; [congruence|].
      apply pushed_submissions_commute. congruence.
Qed.

Lemma appends_to_different_logs_commute_witness :
  field_name (ToLower "Leetcode") = true /\
  field_name (ToLower "Codeforces") = true /\
  snd (Rev2.AppendSubmissionData Sample.db "a@x.com" "Codeforces" (Some [Sample.two_sum]) 2
         (snd (Rev2.AppendContestData Sample.db "a@x.com" "Leetcode"
                 (Some [Sample.contest_12345]) 1 [Sample.one_contest])))
  = snd (Rev2.AppendContestData Sample.db "a@x.com" "Leetcode" (Some [Sample.contest_12345]) 4
           (snd (Rev2.AppendSubmissionData Sample.db "a@x.com" "Codeforces"
                   (Some [Sample.two_sum]) 3 [Sample.one_contest]))).
Proof.
  assert (H1 : field_name (ToLower "Leetcode") = true) by reflexivity.
  assert (H2 : field_name (ToLower "Codeforces") = true) by reflexivity.
  destruct (appends_to_different_logs_commute Sample.db "a@x.com" "Leetcode"
              "a@x.com" "Codeforces" 1 2 3 4 [Sample.one_contest] H1 H2) as [Hcs _].
  exact (conj H1 (conj H2 (Hcs [Sample.contest_12345] [Sample.two_sum]))).
Defined.

(** X7. An append for an email no document has returns success and leaves
    the collection as it is: no document is created.  The sequence is not
    nil and the lower-cased platform name is a path segment. *)
Theorem append_for_unknown_email_changes_nothing db email platform now
    (coll : list Rev2.Document) :
  field_name (ToLower platform) = true ->
  find_first email coll = None ->
  (forall vs, Rev2.AppendContestData db email platform (Some vs) now coll = (Ret None, coll)) /\
  (forall vs, Rev2.AppendSubmissionData db email platform (Some vs) now coll = (Ret None, coll)).
Proof.
  intros _ Hnone. split; intros vs.
  - rewrite AppendContestData_elems. by rewrite update_first_unmatched.
  - rewrite AppendSubmissionData_elems. by rewrite update_first_unmatched.
Qed.

Lemma append_for_unknown_email_changes_nothing_witness :
  field_name (ToLower "Leetcode") = true /\
  find_first "nobody@x.com" [Sample.one_contest; Sample.other_user] = None /\
  Rev2.AppendSubmissionData Sample.db "nobody@x.com" "Leetcode" (Some [Sample.two_sum]) 5
    [Sample.one_contest; Sample.other_user]
  = (Ret None, [Sample.one_contest; Sample.other_user]).
Proof.
  assert (H1 : field_name (ToLower "Leetcode") = true) by reflexivity.
  assert (H2 : find_first "nobody@x.com" [Sample.one_contest; Sample.other_user] = None)
    by reflexivity.
  destruct (append_for_unknown_email_changes_nothing Sample.db "nobody@x.com" "Leetcode" 5
              [Sample.one_contest; Sample.other_user] H1 H2) as [_ Hs].
  exact (conj H1 (conj H2 (Hs [Sample.two_sum]))).
Defined.

Lemma update_first_emails e (f : Rev2.Document -> Rev2.Document) coll :
  (forall d, email (f d) = email d) ->
  map email (update_first e f coll) = map email coll.
Proof.
  intros Hf. induction coll as [|d0 coll IH]; simpl; [done|].
  destruct (matches e d0); simpl; by rewrite ?Hf, ?IH.
Qed.

Lemma update_first_Forall (P : Rev2.Document -> Prop) e f coll :
  (forall d, P d -> P (f d)) -> Forall P coll -> Forall P (update_first e f coll).
Proof.
  intros Hf. induction 1 as [|d0 coll Hd0 Hcoll IH]; simpl; [constructor|].
  destruct (matches e d0); constructor; auto.
Qed.

(** An append never adds or removes a document and never changes an
    email: the emails of the collection, in order, are the same after
    [AppendContestData] and [AppendSubmissionData] as before, whatever
    the arguments. *)
Lemma appends_keep_the_users db email platform now (coll : list Rev2.Document) :
  (forall vs, map Mongo.email (snd (Rev2.AppendContestData db email platform vs now coll))
              = map Mongo.email coll) /\
  (forall vs, map Mongo.email (snd (Rev2.AppendSubmissionData db email platform vs now coll))
              = map Mongo.email coll).
Proof.
  split; intros vs.
  - rewrite AppendContestData_snd. destruct vs; [|done]. by apply update_first_emails.
  - rewrite AppendSubmissionData_snd. destruct vs; [|done]. by apply update_first_emails.
Qed.

(** X8. The current revision keeps the keys under [platformData] in lower
    case: when every document has only lower-case keys and the platform
    name is ASCII, so that its lower case is, every document has only
    lower-case keys after [AppendContestData] and after
    [AppendSubmissionData]. *)
Theorem appends_keep_keys_lower_case db email platform now (coll : list Rev2.Document) :
  lower_ascii (ToLower platform) = true ->
  Forall lower_case_keys coll ->
  (forall vs, Forall lower_case_keys
                (snd (Rev2.AppendContestData db email platform vs now coll))) /\
  (forall vs, Forall lower_case_keys
                (snd (Rev2.AppendSubmissionData db email platform vs now coll))).
Proof.
  intros Hkey Hcoll. split; intros vs.
  - rewrite AppendContestData_snd. destruct vs; [|done].
    apply update_first_Forall; [|done]. intros d Hd. by apply lower_case_keys_set.
  - rewrite AppendSubmissionData_snd. destruct vs; [|done].
    apply update_first_Forall; [|done]. intros d Hd. by apply lower_case_keys_set.
Qed.

Lemma appends_keep_keys_lower_case_witness :
  lower_ascii (ToLower "Codeforces") = true /\
  Forall lower_case_keys [Sample.one_contest] /\
  Forall lower_case_keys
    (snd (Rev2.AppendContestData Sample.db "a@x.com" "Codeforces"
            (Some [Sample.contest_12345]) 5 [Sample.one_contest])).
Proof.
  assert (H1 : lower_ascii (ToLower "Codeforces") = true) by reflexivity.
  assert (H2 : Forall lower_case_keys [Sample.one_contest])
    by (constructor; [apply one_contest_lower_case_keys | constructor]).
  destruct (appends_keep_keys_lower_case Sample.db "a@x.com" "Codeforces" 5
              [Sample.one_contest] H1 H2) as [Hc _].
  exact (conj H1 (conj H2 (Hc (Some [Sample.contest_12345])))).
Defined.

(** ** The response formatter, further *)

Lemma submission_loop_result l acc :
  Rev2.submission_loop l acc
  = match l with
    | [] => acc
    | _ => Some (elems acc ++ map Rev2.submissionResponseObject l)
    end.
Proof.
  revert acc. induction l as [|s l IH]; intros acc; [done|].
  simpl. rewrite IH. destruct l; simpl.
  - done.
  - unfold append. simpl. by rewrite <- app_assoc.
Qed.

(** The contest loop, on identifiers that parse. *)
Lemma contest_loop_result l acc :
  Forall id_parses l ->
  Rev2.contest_loop l acc
  = Ret match l with
        | [] => acc
        | _ => Some (elems acc ++
                     map (fun c => Rev2.contestResponseObject c
                                     (fst (ParseFloat (Rev2.ContestID c)))) l)
        end.
Proof.
  intros Hl. revert acc. induction Hl as [|c l Hc Hl IH]; intros acc; [done|].
  simpl. unfold id_parses in Hc.
  destruct (ParseFloat (Rev2.ContestID c)) as [f [e|]]; [done|].
  rewrite IH. f_equal. destruct l; simpl.
  - done.
  - unfold append. simpl. by rewrite <- app_assoc.
Qed.

(** The contest loop stops at the first identifier that does not parse,
    with its error. *)
Lemma contest_loop_first_error pre c rest acc f e :
  Forall id_parses pre ->
  ParseFloat (Rev2.ContestID c) = (f, Some e) ->
  Rev2.contest_loop (pre ++ c :: rest) acc = Fatal "Couldnt parse contestID to float" e.
Proof.
  intros Hpre Hc. revert acc. induction Hpre as [|c0 pre Hc0 Hpre IH]; intros acc; simpl.
  - by rewrite Hc.
  - unfold id_parses in Hc0.
    destruct (ParseFloat (Rev2.ContestID c0)) as [f0 [e0|]]; [done|]. apply IH.
Qed.

(** X9. The formatter keeps the length and makes a nil slice of an input
    without elements only: the submissions it returns are as many as the
    input has, and the slice is nil exactly when the input has no element;
    the same holds of the contests whenever the contest formatter
    returns. *)
Theorem formatter_keeps_the_length :
  (forall submissionDataforDB,
     len (Rev2.formatSubmissionSchemaToGRPCSubmission submissionDataforDB)
     = len submissionDataforDB /\
     (Rev2.formatSubmissionSchemaToGRPCSubmission submissionDataforDB = None
      <-> elems submissionDataforDB = [])) /\
  (forall contestDataforDB out,
     Rev2.formatContestSchemaToGRPCContest contestDataforDB = Ret out ->
     len out = len contestDataforDB /\
     (out = None <-> elems contestDataforDB = [])).
Proof.
  split.
  - intros ss. unfold Rev2.formatSubmissionSchemaToGRPCSubmission.
    rewrite submission_loop_result. unfold len.
    destruct (elems ss) as [|s l]; [done|]. simpl. rewrite length_map. done.
  - intros cs out Hout.
    destruct (contest_loop_returns _ _ _ Hout) as (os & Hel & Hos).
    simpl in Hel. split.
    + unfold len. rewrite Hel. by rewrite (Forall2_length _ _ _ Hos).
    + unfold Rev2.formatContestSchemaToGRPCContest in Hout.
      destruct (elems cs) as [|c l] eqn:Hcs; simpl in Hout.
      * by injection Hout as <-.
      * split; [|done]. intros ->. simpl in Hel. subst os. inversion Hos.
Qed.

Lemma formatter_keeps_the_length_witness :
  len (Rev2.formatSubmissionSchemaToGRPCSubmission (Some [Sample.two_sum; zero])) = 2 /\
  exists out,
    Rev2.formatContestSchemaToGRPCContest (Some [Sample.weekly300]) = Ret out /\
    len out = 1.
Proof.
  destruct formatter_keeps_the_length as [Hs Hc]. split.
  - exact (proj1 (Hs (Some [Sample.two_sum; zero]))).
  - eexists. split; [reflexivity|].
    exact (proj1 (Hc (Some [Sample.weekly300]) _ eq_refl)).
Defined.

(** X10. The contest formatter returns exactly when every identifier of
    the input parses; otherwise [log.Fatalf] ends the process with the
    error of the first identifier that does not parse, whatever follows
    it. *)
Theorem contest_formatter_returns_iff contestDataforDB :
  (returns (Rev2.formatContestSchemaToGRPCContest contestDataforDB)
   <-> Forall id_parses (elems contestDataforDB)) /\
  (forall pre c rest f e,
     elems contestDataforDB = pre ++ c :: rest ->
     Forall id_parses pre ->
     ParseFloat (Rev2.ContestID c) = (f, Some e) ->
     Rev2.formatContestSchemaToGRPCContest contestDataforDB
     = Fatal "Couldnt parse contestID to float" e).
Proof.
  unfold Rev2.formatContestSchemaToGRPCContest. split; [split|].
  - intros [out Hout]. apply Forall_forall. intros c Hin.
    destruct (snd (ParseFloat (Rev2.ContestID c))) as [e|] eqn:He; [|done].
    destruct (contest_loop_fatal (elems contestDataforDB) None c) as [err Herr].
    + by apply list_elem_of_In.
    + by rewrite He.
    + by rewrite Herr in Hout.
  - intros Hall. rewrite contest_loop_result by done. by eexists.
  - intros pre c rest f e -> Hpre Hc. by eapply contest_loop_first_error.
Qed.

Lemma contest_formatter_returns_iff_witness :
  Rev2.formatContestSchemaToGRPCContest
    (Some [Sample.weekly300; Sample.contest_abc; Sample.contest_12345])
  = Fatal "Couldnt parse contestID to float" ErrSyntax.
Proof.
  refine (proj2 (contest_formatter_returns_iff
                   (Some [Sample.weekly300; Sample.contest_abc; Sample.contest_12345]))
            [Sample.weekly300] Sample.contest_abc [Sample.contest_12345]
            (S754_zero false) ErrSyntax eq_refl _ eq_refl).
  constructor; [reflexivity | constructor].
Defined.

Lemma contest_loop_app xs ys acc :
  Rev2.contest_loop (xs ++ ys) acc = Rev2.contest_loop xs acc ≫= Rev2.contest_loop ys.
Proof.
  revert acc. induction xs as [|c xs IH]; intros acc; [done|].
  simpl. destruct (ParseFloat (Rev2.ContestID c)) as [f [e|]]; [done|]. apply IH.
Qed.

Lemma contest_loop_returns_parses l acc out :
  Rev2.contest_loop l acc = Ret out -> Forall id_parses l.
Proof.
  intros Hout. apply Forall_forall. intros c Hin. unfold id_parses.
  destruct (snd (ParseFloat (Rev2.ContestID c))) as [e|] eqn:He; [|done].
  destruct (contest_loop_fatal l acc c) as [err Herr].
  - by apply list_elem_of_In.
  - by rewrite He.
  - by rewrite Herr in Hout.
Qed.

Lemma contest_loop_elems l acc out :
  Rev2.contest_loop l acc = Ret out ->
  elems out = elems acc ++
              map (fun c => Rev2.contestResponseObject c
                              (fst (ParseFloat (Rev2.ContestID c)))) l.
Proof.
  intros Hout. pose proof (contest_loop_returns_parses _ _ _ Hout) as Hl.
  rewrite contest_loop_result in Hout by done. injection Hout as <-.
  destruct l; simpl; [by rewrite app_nil_r | done].
Qed.

(** X11. The formatter works entry by entry: the submissions formatted from
    a concatenation are those formatted from its parts, one after the
    other; when the contest formatter returns for two sequences it returns
    for their concatenation, with the records of the first followed by
    those of the second; and when it does not return for a sequence, it
    ends in the same way for that sequence followed by any other. *)
Theorem formatter_of_a_concatenation :
  (forall xs ys,
     elems (Rev2.formatSubmissionSchemaToGRPCSubmission (Some (xs ++ ys)))
     = elems (Rev2.formatSubmissionSchemaToGRPCSubmission (Some xs))
       ++ elems (Rev2.formatSubmissionSchemaToGRPCSubmission (Some ys))) /\
  (forall xs ys a b,
     Rev2.formatContestSchemaToGRPCContest (Some xs) = Ret a ->
     Rev2.formatContestSchemaToGRPCContest (Some ys) = Ret b ->
     exists out,
       Rev2.formatContestSchemaToGRPCContest (Some (xs ++ ys)) = Ret out /\
       elems out = elems a ++ elems b) /\
  (forall xs ys,
     ~ returns (Rev2.formatContestSchemaToGRPCContest (Some xs)) ->
     Rev2.formatContestSchemaToGRPCContest (Some (xs ++ ys))
     = Rev2.formatContestSchemaToGRPCContest (Some xs)).
Proof.
  unfold Rev2.formatSubmissionSchemaToGRPCSubmission, Rev2.formatContestSchemaToGRPCContest.
  simpl. split; [|split].
  - intros xs ys. rewrite !submission_loop_elems. simpl. apply map_app.
  - intros xs ys a b Ha Hb.
    pose proof (contest_loop_returns_parses _ _ _ Ha) as Hxs.
    pose proof (contest_loop_returns_parses _ _ _ Hb) as Hys.
    eexists. split.
    + apply contest_loop_result. by apply Forall_app.
    + rewrite (contest_loop_elems _ _ _ Ha), (contest_loop_elems _ _ _ Hb). simpl.
      rewrite <- map_app. by destruct (xs ++ ys).
  - intros xs ys Hxs. rewrite contest_loop_app.
    destruct (Rev2.contest_loop xs None) as [a|msg e|msg]; [|done|done].
    destruct Hxs. by eexists.
Qed.

Lemma formatter_of_a_concatenation_witness :
  (exists out,
     Rev2.formatContestSchemaToGRPCContest (Some ([Sample.weekly300] ++ [Sample.contest_12345]))
     = Ret out /\
     elems out
     = elems (Some [Rev2.contestResponseObject Sample.weekly300 (float64_of_Z 300)])
       ++ elems (Some [Rev2.contestResponseObject Sample.contest_12345 (float64_of_Z 12345)])) /\
  Rev2.formatContestSchemaToGRPCContest (Some ([Sample.contest_abc] ++ [Sample.weekly300]))
  = Rev2.formatContestSchemaToGRPCContest (Some [Sample.contest_abc]).
Proof.
  destruct formatter_of_a_concatenation as (_ & Hret & Hfail). split.
  - exact (Hret [Sample.weekly300] [Sample.contest_12345] _ _ eq_refl eq_refl).
  - refine (Hfail [Sample.contest_abc] [Sample.weekly300] _).
    intros [out Hout]. discriminate Hout.
Defined.

(** X12. The complete response is the two single responses put together:
    when the contest response is made, the complete response is made too
    and holds the submissions of the submission response and the contests
    of the contest response; and when a contest identifier does not
    parse, the complete response ends in the same [log.Fatalf], although
    the submissions alone would have been formatted. *)
Theorem complete_response_combines submissionDataforDB contestDataforDB :
  (forall rc,
     Rev2.CreateGRPCContestResponseFromContestSchema contestDataforDB = Ret rc ->
     exists r,
       Rev2.CreateGRPCCompleteUserDataResponseFromSubmssionSchema
         submissionDataforDB contestDataforDB = Ret r /\
       platformDatapb.Submissions r
       = platformDatapb.SubmissionResponse_Submissions
           (Rev2.CreateGRPCSubmissionResponseFromSubmissionSchema submissionDataforDB) /\
       platformDatapb.Contests r = platformDatapb.ContestResponse_Contests rc) /\
  (forall msg err,
     Rev2.CreateGRPCContestResponseFromContestSchema contestDataforDB = Fatal msg err ->
     Rev2.CreateGRPCCompleteUserDataResponseFromSubmssionSchema
       submissionDataforDB contestDataforDB = Fatal msg err).
Proof.
  unfold Rev2.CreateGRPCContestResponseFromContestSchema,
    Rev2.CreateGRPCCompleteUserDataResponseFromSubmssionSchema,
    Rev2.CreateGRPCSubmissionResponseFromSubmissionSchema.
  destruct (Rev2.formatContestSchemaToGRPCContest contestDataforDB) as [cs|msg0 e0|msg0];
    simpl; split; try done.
  - intros rc [= <-]. by eexists.
  - by intros msg err [= -> ->].
Qed.

Lemma complete_response_combines_witness :
  (exists r,
     Rev2.CreateGRPCCompleteUserDataResponseFromSubmssionSchema
       (Some [Sample.two_sum]) (Some [Sample.weekly300]) = Ret r /\
     platformDatapb.Submissions r
     = platformDatapb.SubmissionResponse_Submissions
         (Rev2.CreateGRPCSubmissionResponseFromSubmissionSchema (Some [Sample.two_sum])) /\
     platformDatapb.Contests r
     = Some [Rev2.contestResponseObject Sample.weekly300 (float64_of_Z 300)]) /\
  Rev2.CreateGRPCCompleteUserDataResponseFromSubmssionSchema
    (Some [Sample.two_sum]) (Some [Sample.contest_abc])
  = Fatal "Couldnt parse contestID to float" ErrSyntax.
Proof.
  split.
  - exact (proj1 (complete_response_combines (Some [Sample.two_sum]) (Some [Sample.weekly300]))
             _ eq_refl).
  - exact (proj2 (complete_response_combines (Some [Sample.two_sum]) (Some [Sample.contest_abc]))
             _ _ eq_refl).
Defined.

(** X13. The submission formatter loses nothing: two inputs with the same
    formatted submissions have the same submissions.  The contest
    formatter never passes [Solved] on: inputs that differ in [Solved]
    only are formatted alike. *)
Theorem formatter_information :
  (forall ss ss',
     elems (Rev2.formatSubmissionSchemaToGRPCSubmission ss)
     = elems (Rev2.formatSubmissionSchemaToGRPCSubmission ss') ->
     elems ss = elems ss') /\
  (forall cs cs',
     Forall2 same_but_Solved (elems cs) (elems cs') ->
     Rev2.formatContestSchemaToGRPCContest cs = Rev2.formatContestSchemaToGRPCContest cs').
Proof.
  unfold Rev2.formatSubmissionSchemaToGRPCSubmission, Rev2.formatContestSchemaToGRPCContest.
  split.
  - intros ss ss'. rewrite !submission_loop_elems.
    change (elems None) with (@nil platformDatapb.Submission). rewrite !app_nil_l.
    generalize (elems ss) (elems ss'). clear.
    induction l as [|s l IH]; intros [|s' l']; cbn [map]; try done.
    intros H. injection H as H1 H2 H3 H4 H5 H6 Hl.
    f_equal; [|by apply IH]. destruct s, s'. simpl in *. congruence.
  - intros cs cs' H. generalize (@None (list platformDatapb.Contest)).
    induction H as [|c c' l l' Hc Hl IH]; intros acc; [done|].
    destruct Hc as (H1 & H2 & H3 & H4 & H5). simpl. rewrite H5.
    destruct (ParseFloat (Rev2.ContestID c')) as [f [e|]]; [done|].
    unfold Rev2.contestResponseObject. rewrite H1, H2, H3, H4. apply IH.
Qed.

Lemma formatter_information_witness :
  Rev2.formatContestSchemaToGRPCContest (Some [Sample.contest_12345])
  = Rev2.formatContestSchemaToGRPCContest
      (Some [{| Rev2.ContestName := "Biweekly 7"; Rev2.ContestDate := "2019-08-24";
                Rev2.Rank := float64_of_Z 120; Rev2.Rating := float64_of_Z 1700;
                Rev2.Solved := 0; Rev2.ContestID := "12345" |}]).
Proof.
  refine (proj2 formatter_information (Some [Sample.contest_12345]) (Some [_]) _).
  constructor; [by repeat split | constructor].
Defined.

(** ** Identifiers written in decimal digits *)

Lemma digits2_pos_size p : digits2_pos p = Pos.size p.
Proof. induction p as [p IH|p IH|]; simpl; congruence. Qed.

Lemma size_iter_xO k p : Pos.size (Pos.iter xO p k) = (Pos.size p + k)%positive.
Proof.
  induction k as [|k IH] using Pos.peano_ind.
  - simpl. lia.
  - rewrite Pos.iter_succ. simpl. rewrite IH. lia.
Qed.

Lemma Zpos_iter_xO k p : Z.pos (Pos.iter xO p k) = Z.pos p * 2 ^ Z.pos k.
Proof.
  induction k as [|k IH] using Pos.peano_ind.
  - simpl. lia.
  - rewrite Pos.iter_succ, Pos2Z.inj_xO, IH, Pos2Z.inj_succ, Z.pow_succ_r by lia. lia.
Qed.

Lemma size_below p n : 0 <= n -> Z.pos p < 2 ^ n -> Z.pos (Pos.size p) <= n.
Proof.
  intros Hn Hp. pose proof (Pos.size_le p) as Hle.
  assert (H : 2 ^ Z.pos (Pos.size p) <= 2 * Z.pos p).
  { rewrite <- Pos2Z.inj_pow. change (2 * Z.pos p) with (Z.pos p~0). lia. }
  assert (Hlt : 2 ^ Z.pos (Pos.size p) < 2 ^ (n + 1)).
  { rewrite Z.pow_add_r, Z.pow_1_r by lia. lia. }
  apply Z.pow_lt_mono_r_iff in Hlt; lia.
Qed.

(** A mantissa of 53 bits needs no rounding. *)
Lemma binary_round_aux_53 m e :
  Z.pos (digits2_pos m) = 53 -> -1074 <= e <= 971 ->
  binary_round_aux prec64 emax64 false (Z.pos m) e loc_Exact = S754_finite false m e.
Proof.
  intros Hm He. unfold binary_round_aux, shr_fexp, fexp, emin, Zdigits2, prec64, emax64.
  rewrite Hm. replace (Z.max (53 + e - 53) (3 - 1024 - 53)) with e by lia.
  rewrite Z.sub_diag. simpl. rewrite Hm.
  replace (Z.max (53 + e - 53) (3 - 1024 - 53)) with e by lia.
  rewrite Z.sub_diag. simpl.
  change (1024 - 53) with 971. destruct (Z.leb_spec e 971); [reflexivity | lia].
Qed.

(** The [float64] of a positive integer below 2^53 is that integer. *)
Lemma float64_of_Z_finite p :
  Z.pos p < 2 ^ 53 ->
  exists m n, 0 <= n <= 52 /\ float64_of_Z (Z.pos p) = S754_finite false m (- n) /\
              Z.pos m = Z.pos p * 2 ^ n.
Proof.
  intros Hp. pose proof (size_below p 53 ltac:(lia) Hp) as Hd.
  rewrite <- digits2_pos_size in Hd.
  unfold float64_of_Z, binary_normalize, binary_round, fexp, emin, prec64, emax64.
  rewrite Z.add_0_r.
  replace (Z.max (Z.pos (digits2_pos p) - 53) (3 - 1024 - 53))
    with (Z.pos (digits2_pos p) - 53) by lia.
  unfold shl_align. rewrite Z.sub_0_r.
  destruct (Z.pos (digits2_pos p) - 53) as [|k|k] eqn:Hk; [|lia|].
  - exists p, 0. split; [lia|]. split; [|lia].
    apply binary_round_aux_53; lia.
  - exists (Pos.iter xO p k), (Z.pos k). split; [lia|]. split; [|apply Zpos_iter_xO].
    change (- Z.pos k) with (Z.neg k). apply binary_round_aux_53; [|lia].
    rewrite digits2_pos_size, size_iter_xO, <- digits2_pos_size. lia.
Qed.

Lemma integer_value_float64_of_Z z :
  0 <= z < 2 ^ 53 -> integer_value (float64_of_Z z) = Some z.
Proof.
  intros [H0 Hz]. destruct z as [|p|p]; [done| |lia].
  destruct (float64_of_Z_finite p Hz) as (m & n & Hn & -> & Hm).
  unfold integer_value. rewrite Z.opp_involutive, Hm.
  destruct (Z.leb_spec 0 (- n)) as [Hle|Hlt].
  - assert (n = 0) as -> by lia. simpl. f_equal. lia.
  - rewrite Z.mod_mul by lia. simpl.
    rewrite Z.div_mul by lia. reflexivity.
Qed.

Lemma digit_char c :
  is_digit c = true ->
  Ascii.eqb c "_" = false /\ Ascii.eqb c "." = false /\
  Ascii.eqb c "+" = false /\ Ascii.eqb c "-" = false /\
  Ascii.eqb c "i" = false /\ Ascii.eqb c "I" = false /\
  Ascii.eqb c "n" = false /\ Ascii.eqb c "N" = false /\
  (strconv.lower c =? 120)%N = false /\ 0 <= digit_val c <= 9.
Proof.
  destruct c as [[] [] [] [] [] [] [] []]; vm_compute; intros H;
    first [discriminate H | repeat split; discriminate].
Qed.

Lemma decimal_of_nonneg s acc : all_digits s = true -> 0 <= acc -> 0 <= decimal_of acc s.
Proof.
  revert acc. induction s as [|c s IH]; intros acc Hs Hacc; simpl in *; [done|].
  apply andb_prop in Hs as [Hc Hs]. apply IH; [done|].
  pose proof (digit_char c Hc). lia.
Qed.

(** On decimal digits the mantissa loop of [readFloat] reads to the end. *)
Lemma mant_loop_digits s st :
  all_digits s = true -> sawdot st = false ->
  mant_loop false s st
  = ({| mantissa := decimal_of (mantissa st) s;
        frac := frac st;
        sawdot := false;
        sawdigits := sawdigits st || negb (String.eqb s EmptyString);
        underscores := underscores st |}, EmptyString).
Proof.
  revert st. induction s as [|c s IH]; intros st Hs Hdot.
  - simpl. destruct st; simpl in *. subst. by rewrite orb_false_r.
  - simpl in Hs. apply andb_prop in Hs as [Hc Hs].
    destruct (digit_char c Hc) as (H_ & Hp & _).
    cbn [mant_loop]. rewrite H_, Hp, Hc, IH by (done || by simpl; rewrite Hdot).
    simpl. rewrite Hdot. by rewrite orb_true_r.
Qed.

Lemma ParseFloat_digits s :
  s <> EmptyString -> all_digits s = true -> decimal_value s < 2 ^ 53 ->
  exists f, ParseFloat s = (f, None) /\ integer_value f = Some (decimal_value s).
Proof.
  intros Hne Hs Hlt. destruct s as [|c s]; [done|].
  pose proof Hs as Hall. simpl in Hs. apply andb_prop in Hs as [Hc Hs].
  destruct (digit_char c Hc) as (H_ & Hp & Hplus & Hminus & Hi & HI & Hn & HN & Hx & Hd).
  pose proof (decimal_of_nonneg (String c s) 0 Hall ltac:(lia)) as H0.
  fold (decimal_value (String c s)) in H0.
  assert (Hspecial : special (String c s) = None).
  { unfold special. by rewrite Hplus, Hminus, Hi, HI, Hn, HN. }
  assert (Hsign : read_sign (String c s) = (false, String c s)).
  { unfold read_sign. by rewrite Hplus, Hminus. }
  assert (Hbase : read_base (String c s) = (false, String c s)).
  { unfold read_base. destruct s as [|c1 [|c2 s]]; try done.
    simpl in Hs. apply andb_prop in Hs as [Hc1 _].
    destruct (digit_char c1 Hc1) as (_ & _ & _ & _ & _ & _ & _ & _ & Hx1 & _).
    by rewrite Hx1, andb_false_r. }
  assert (Hread : readFloat (String c s)
                  = Some (Literal false false (decimal_value (String c s)) 0 EmptyString)).
  { unfold readFloat. rewrite Hsign, Hbase, (mant_loop_digits _ (MantState 0 0 false false false) Hall eq_refl).
    cbn [sawdigits mantissa frac underscores orb negb String.eqb andb].
    fold (decimal_value (String c s)).
    by destruct (decimal_value (String c s) =? 0). }
  exists (float64_of_Z (decimal_value (String c s))). split.
  - unfold ParseFloat, atof64. rewrite Hspecial, Hread.
    cbn [hex neg mant exp rest]. unfold round_decimal.
    destruct (Z.eqb_spec (decimal_value (String c s)) 0) as [Hz|Hz].
    + rewrite Hz. cbn [range_check]. rewrite Nat.sub_0_r, Nat.eqb_refl. done.
    + cbn [Z.leb Z.compare]. rewrite Z.pow_0_r, Z.mul_1_r.
      fold (float64_of_Z (decimal_value (String c s))).
      destruct (decimal_value (String c s)) as [|p|p] eqn:Hv; [done| |lia].
      destruct (float64_of_Z_finite p Hlt) as (m & n & _ & -> & _).
      cbn [range_check String.length]. rewrite Nat.sub_0_r, Nat.eqb_refl. done.
  - apply integer_value_float64_of_Z. lia.
Qed.

(** X14. A contest identifier written as one or more decimal digits, of a
    value below 2^53, is never fatal to the formatter, and the [ContestId]
    of its record is exactly the number the digits write: nothing is lost
    in the [float64]. *)
Theorem decimal_ids_are_formatted_exactly l :
  Forall decimal_id l ->
  exists out,
    Rev2.formatContestSchemaToGRPCContest (Some l) = Ret out /\
    map (fun o => integer_value (platformDatapb.ContestId o)) (elems out)
    = map (fun c => Some (decimal_value (Rev2.ContestID c))) l.
Proof.
  intros Hl.
  assert (Hparse : Forall id_parses l).
  { eapply Forall_impl; [exact Hl|]. intros c (Hne & Hd & Hlt).
    destruct (ParseFloat_digits _ Hne Hd Hlt) as (f & Hf & _).
    unfold id_parses. by rewrite Hf. }
  unfold Rev2.formatContestSchemaToGRPCContest. cbn [elems default].
  rewrite contest_loop_result by done. eexists. split; [done|].
  transitivity (map (fun o => integer_value (platformDatapb.ContestId o))
                  (map (fun c => Rev2.contestResponseObject c
                                   (fst (ParseFloat (Rev2.ContestID c)))) l)).
  { by destruct l. }
  rewrite map_map. apply map_ext_Forall. eapply Forall_impl; [exact Hl|].
  intros c (Hne & Hd & Hlt). destruct (ParseFloat_digits _ Hne Hd Hlt) as (f & Hf & Hv).
  simpl. by rewrite Hf.
Qed.

Lemma decimal_ids_are_formatted_exactly_witness :
  exists out,
    Rev2.formatContestSchemaToGRPCContest (Some [Sample.weekly300; Sample.contest_12345])
    = Ret out /\
    map (fun o => integer_value (platformDatapb.ContestId o)) (elems out)
    = map (fun c => Some (decimal_value (Rev2.ContestID c)))
        [Sample.weekly300; Sample.contest_12345].
Proof.
  apply (decimal_ids_are_formatted_exactly [Sample.weekly300; Sample.contest_12345]).
  repeat constructor; vm_compute; congruence.
Defined.

(** ** The older revision: appends, and the reads after them *)

Lemma older_AppendContestData_snd db email platform vs now (coll : list Rev1.Document) :
  snd (Rev1.AppendContestData db email platform vs now coll)
  = match vs with
    | Some l => update_first email (pushed_contests platform l) coll
    | None => coll
    end.
Proof. by destruct vs. Qed.

Lemma older_AppendSubmissionData_snd db email platform vs now (coll : list Rev1.Document) :
  snd (Rev1.AppendSubmissionData db email platform vs now coll)
  = match vs with
    | Some l => update_first email (pushed_submissions platform l) coll
    | None => coll
    end.
Proof. by destruct vs. Qed.

Lemma older_logs_of_another_key key key' (d : Rev1.Document) cs ss :
  key' <> key ->
  contest_log key (pushed_contests key' cs d) = contest_log key d /\
  submission_log key (pushed_contests key' cs d) = submission_log key d /\
  contest_log key (pushed_submissions key' ss d) = contest_log key d /\
  submission_log key (pushed_submissions key' ss d) = submission_log key d.
Proof.
  intros Hne. unfold contest_log, submission_log, pushed_contests, pushed_submissions.
  by rewrite !sub_document_set, !decide_False.
Qed.

(** X15. In the older revision the key of an append is the platform
    argument as it is given, and so is the key of the projection of a
    read.  For a user that has a document, before the deadline of the
    connection's context, and an argument that is one path segment: after
    an append of a sequence that has an entry, the last-element read with
    the same argument returns the last entry of that sequence when the
    argument is a casing of "leetcode", and panics on the index otherwise;
    and a read with any other argument, be it another casing of the same
    name, is what it was before the append. *)
Theorem older_append_then_GetLast email platform db now (coll : list Rev1.Document) d :
  Err (Rev1.ctx db) now = None ->
  find_first email coll = Some d ->
  field_name platform = true ->
  (forall l c t,
     Rev1.GetLastContest email platform db now
       (snd (Rev1.AppendContestData db email platform (Some (l ++ [c])) t coll))
     = if decide (ToLower platform = "leetcode") then Ret c
       else Panic "index out of range") /\
  (forall l s t,
     Rev1.GetLastSubmission email platform db now
       (snd (Rev1.AppendSubmissionData db email platform (Some (l ++ [s])) t coll))
     = if decide (ToLower platform = "leetcode") then Ret s
       else Panic "index out of range") /\
  (forall platform' cs ss t,
     field_name platform' = true -> platform' <> platform ->
     Rev1.GetLastContest email platform' db now
       (snd (Rev1.AppendContestData db email platform cs t coll))
     = Rev1.GetLastContest email platform' db now coll /\
     Rev1.GetLastSubmission email platform' db now
       (snd (Rev1.AppendSubmissionData db email platform ss t coll))
     = Rev1.GetLastSubmission email platform' db now coll).
Proof.
  intros Hctx Hfind _.
  assert (Hc : forall l, find_first email (update_first email (pushed_contests platform l) coll)
                         = Some (pushed_contests platform l d)).
  { intros l. rewrite find_first_update_first by done. by rewrite Hfind. }
  assert (Hs : forall l, find_first email (update_first email (pushed_submissions platform l) coll)
                         = Some (pushed_submissions platform l d)).
  { intros l. rewrite find_first_update_first by done. by rewrite Hfind. }
  split; [|split].
  - intros l c t. rewrite older_AppendContestData_snd.
    rewrite (older_GetLastContest_found _ _ _ _ _ _ Hctx (Hc _)).
    case_decide; [|done]. eapply index_last. rewrite contest_log_pushed. simpl.
    by rewrite app_assoc.
  - intros l s t. rewrite older_AppendSubmissionData_snd.
    rewrite (older_GetLastSubmission_found _ _ _ _ _ _ Hctx (Hs _)).
    case_decide; [|done]. eapply index_last. rewrite submission_log_pushed. simpl.
    by rewrite app_assoc.
  - intros platform' cs ss t _ Hne.
    rewrite older_AppendContestData_snd, older_AppendSubmissionData_snd.
    rewrite (older_GetLastContest_found _ platform' _ _ coll _ Hctx Hfind).
    rewrite (older_GetLastSubmission_found _ platform' _ _ coll _ Hctx Hfind).
    split.
    + destruct cs as [l|]; [|by apply older_GetLastContest_found].
      rewrite (older_GetLastContest_found _ _ _ _ _ _ Hctx (Hc _)).
      destruct (older_logs_of_another_key platform' platform d l [] ) as (-> & _); done.
    + destruct ss as [l|]; [|by apply older_GetLastSubmission_found].
      rewrite (older_GetLastSubmission_found _ _ _ _ _ _ Hctx (Hs _)).
      destruct (older_logs_of_another_key platform' platform d [] l) as (_ & _ & _ & ->); done.
Qed.

Lemma older_append_then_GetLast_witness :
  Err (Rev1.ctx Sample.old_db) 5 = None /\
  find_first "a@x.com" [Sample.old_user] = Some Sample.old_user /\
  field_name "Leetcode" = true /\
  Rev1.GetLastContest "a@x.com" "Leetcode" Sample.old_db 5
    (snd (Rev1.AppendContestData Sample.old_db "a@x.com" "Leetcode"
            (Some ([] ++ [Sample.old_round])) 1 [Sample.old_user]))
  = Ret Sample.old_round /\
  Rev1.GetLastContest "a@x.com" "leetcode" Sample.old_db 5
    (snd (Rev1.AppendContestData Sample.old_db "a@x.com" "Leetcode"
            (Some [Sample.old_round]) 1 [Sample.old_user]))
  = Ret Sample.old_weekly.
Proof.
  assert (H1 : Err (Rev1.ctx Sample.old_db) 5 = None) by reflexivity.
  assert (H2 : find_first "a@x.com" [Sample.old_user] = Some Sample.old_user)
    by reflexivity.
  assert (H3 : field_name "Leetcode" = true) by reflexivity.
  destruct (older_append_then_GetLast "a@x.com" "Leetcode" Sample.old_db 5
              [Sample.old_user] Sample.old_user H1 H2 H3) as (Hsame & _ & Hother).
  refine (conj H1 (conj H2 (conj H3 (conj (Hsame [] Sample.old_round 1) _)))).
  refine (eq_trans (proj1 (Hother "leetcode" (Some [Sample.old_round]) None 1 _ _)) _).
  - reflexivity.
  - discriminate.
  - reflexivity.
Defined.

Lemma older_FindContestsandSubmissionsFromDB_found db email now
    (coll : list Rev1.Document) d :
  find_first email coll = Some d ->
  lower_case_keys d ->
  Rev1.FindContestsandSubmissionsFromDB db email now coll
  = Ret (contest_log "leetcode" d, submission_log "leetcode" d).
Proof.
  intros Hfind Hkeys. unfold Rev1.FindContestsandSubmissionsFromDB, FindOne.
  rewrite Err_TODO, Hfind. unfold Marshal, Unmarshal. cbn [orFatal mbind Outcome_bind].
  rewrite resolver_decode by (simpl; auto).
  by rewrite decode_platform_lower.
Qed.

(** X16. The older [FindContestsandSubmissionsFromDB] takes no platform: for
    a user whose document has lower-case keys it returns the two logs
    stored under "leetcode", whole, at any time and whatever the handle's
    context; for an email no document has, [log.Fatalf] ends the process;
    and after an older append under the key "leetcode" it returns the
    contests it returned before followed by the appended ones, and the
    same submissions. *)
Theorem older_full_history_is_Leetcode db email now (coll : list Rev1.Document) :
  (find_first email coll = None ->
   Rev1.FindContestsandSubmissionsFromDB db email now coll
   = Fatal "Couldnt find user" ErrNoDocuments) /\
  (forall d, find_first email coll = Some d -> lower_case_keys d ->
     Rev1.FindContestsandSubmissionsFromDB db email now coll
     = Ret (contest_log "leetcode" d, submission_log "leetcode" d) /\
     forall vs t, exists cs,
       Rev1.FindContestsandSubmissionsFromDB db email now
         (snd (Rev1.AppendContestData db email "leetcode" (Some vs) t coll))
       = Ret (cs, submission_log "leetcode" d) /\
       elems cs = elems (contest_log "leetcode" d) ++ vs).
Proof.
  split.
  - intros Hfind. unfold Rev1.FindContestsandSubmissionsFromDB, FindOne.
    by rewrite Err_TODO, Hfind.
  - intros d Hfind Hkeys. split; [by apply older_FindContestsandSubmissionsFromDB_found|].
    intros vs t. rewrite older_AppendContestData_snd.
    exists (contest_log "leetcode" (pushed_contests "leetcode" vs d)).
    rewrite (older_FindContestsandSubmissionsFromDB_found _ _ _ _
               (pushed_contests "leetcode" vs d)).
    + rewrite contest_log_pushed. split; [|done]. do 2 f_equal.
      unfold submission_log, pushed_contests. by rewrite sub_document_set, decide_True.
    + rewrite find_first_update_first by done. by rewrite Hfind.
    + by apply lower_case_keys_set.
Qed.

Lemma older_full_history_is_Leetcode_witness :
  exists cs,
    Rev1.FindContestsandSubmissionsFromDB Sample.old_db "a@x.com" (3600 * Second)
      (snd (Rev1.AppendContestData Sample.old_db "a@x.com" "leetcode"
              (Some [Sample.old_round]) 1 [Sample.old_user]))
    = Ret (cs, submission_log "leetcode" Sample.old_user) /\
    elems cs = elems (contest_log "leetcode" Sample.old_user) ++ [Sample.old_round].
Proof.
  refine (proj2 (proj2 (older_full_history_is_Leetcode Sample.old_db "a@x.com"
                          (3600 * Second) [Sample.old_user])
                   Sample.old_user eq_refl _) [Sample.old_round] 1).
  intros key [p Hp]. unfold Sample.old_user in Hp. simpl in Hp.
  apply lookup_insert_Some in Hp as [[<- _]|[_ Hp]]; [done|].
  apply lookup_singleton_Some in Hp as [<- _]. done.
Defined.

(** X17. The older revision and the deadline: the handle that
    [OpenDatabaseConnection] returns carries a context that ends 10 seconds
    after it was created; from then on the two last-element reads end the
    process on the context's error.  The full read and the two appends
    pass [context.TODO()]: what they do does not depend on the time. *)
Theorem older_operations_and_the_deadline newClient_err connect_err t0 db :
  Rev1.OpenDatabaseConnection newClient_err connect_err t0 = inr db ->
  newClient_err = None /\ connect_err = None /\
  deadline (Rev1.ctx db) = Some (t0 + 10 * Second) /\
  (forall now email platform (coll : list Rev1.Document),
     t0 + 10 * Second <= now ->
     Rev1.GetLastContest email platform db now coll
     = Fatal "Couldnt find user" DeadlineExceeded /\
     Rev1.GetLastSubmission email platform db now coll
     = Fatal "Couldnt find user" DeadlineExceeded) /\
  (forall now now' email platform cs ss (coll : list Rev1.Document),
     Rev1.FindContestsandSubmissionsFromDB db email now coll
     = Rev1.FindContestsandSubmissionsFromDB db email now' coll /\
     Rev1.AppendContestData db email platform cs now coll
     = Rev1.AppendContestData db email platform cs now' coll /\
     Rev1.AppendSubmissionData db email platform ss now coll
     = Rev1.AppendSubmissionData db email platform ss now' coll).
Proof.
  unfold Rev1.OpenDatabaseConnection.
  destruct newClient_err; [done|]. destruct connect_err; [done|].
  intros [= <-]. simpl. do 3 (split; [done|]). split; [|done].
  intros now email platform coll Hnow.
  unfold Rev1.GetLastContest, Rev1.GetLastSubmission, FindOne. simpl.
  rewrite Err_WithTimeout_Background.
  destruct (Z.leb_spec (t0 + 10 * Second) now); [done | lia].
Qed.

Lemma older_operations_and_the_deadline_witness :
  Rev1.OpenDatabaseConnection None None 0 = inr Sample.old_db /\
  Rev1.GetLastSubmission "a@x.com" "leetcode" Sample.old_db (10 * Second) [Sample.old_user]
  = Fatal "Couldnt find user" DeadlineExceeded.
Proof.
  assert (H : Rev1.OpenDatabaseConnection None None 0 = inr Sample.old_db) by reflexivity.
  destruct (older_operations_and_the_deadline None None 0 Sample.old_db H)
    as (_ & _ & _ & Hlate & _).
  refine (conj H (proj2 (Hlate (10 * Second) "a@x.com" "leetcode" [Sample.old_user] _))).
  reflexivity.
Defined.
